(** * CarsDataset scrapers: a shallow embedding and its properties

  The four scrapers of the repository ([autodata_scraper.py],
  [carsdirectory_scraper.py], [theCarSpec_scraper.py] and
  [thecarSpec_scraper2.py]) are embedded module by module.  Python
  values are modelled as follows:

  - [str] is [string]; its characters are the 8-bit code points;
  - a [dict[str, str]] is an association list in insertion order;
  - a [set[str]] is a [gset string]; iterating over it enumerates
    [elements], whose order is left unspecified by every statement;
  - a bs4 [Tag] is a tree of tags and navigable strings;
  - the two files a script touches, whether each can be opened for
    writing, and the log of what the run did form an explicit [world]
    that is threaded through [main];
  - the web site is given by what the stage functions find on its
    pages; the selectors that find it are not part of the model. *)

From Stdlib Require Import ZArith Ascii String.
From stdpp Require Import base list gmap sets strings sorting.

Local Open Scope string_scope.

(** ** Python [str] methods used by the scrapers *)

Module Str.

(** [str.isspace] on one character, for the code points below 256:
    TAB..CR, FS..US, space, NEL and NBSP. *)
Definition isspace (c : ascii) : bool :=
  let n := nat_of_ascii c in
  (((9 <=? n) && (n <=? 13)) || ((28 <=? n) && (n <=? 32))
   || (n =? 133) || (n =? 160))%nat.

Definition newline : ascii := "010"%char.
Definition slash : ascii := "/"%char.

(** [s.lstrip()] *)
Fixpoint lstrip (s : string) : string :=
  match s with
  | EmptyString => EmptyString
  | String c r => if isspace c then lstrip r else s
  end.

(** [s.rstrip()] *)
Fixpoint rstrip (s : string) : string :=
  match s with
  | EmptyString => EmptyString
  | String c r =>
      match rstrip r with
      | EmptyString => if isspace c then EmptyString else String c EmptyString
      | r' => String c r'
      end
  end.

(** [s.strip()] *)
Definition strip (s : string) : string := lstrip (rstrip s).

(** [s.replace(old, new)] for a one-character [old]. *)
Fixpoint replace (old : ascii) (new : string) (s : string) : string :=
  match s with
  | EmptyString => EmptyString
  | String c r =>
      if Ascii.eqb c old then new ++ replace old new r
      else String c (replace old new r)
  end.

(** [''.join(parts)] *)
Definition join (parts : list string) : string := String.concat "" parts.

(** truthiness of a string: [if s:] *)
Definition truthy (s : string) : bool :=
  match s with EmptyString => false | String _ _ => true end.

(** [c in s] for a character *)
Fixpoint contains (c : ascii) (s : string) : bool :=
  match s with
  | EmptyString => false
  | String d r => Ascii.eqb d c || contains c r
  end.

(** [s.rstrip(ch)] for a one-character argument *)
Fixpoint rstrip_char (ch : ascii) (s : string) : string :=
  match s with
  | EmptyString => EmptyString
  | String c r =>
      match rstrip_char ch r with
      | EmptyString => if Ascii.eqb c ch then EmptyString else String c EmptyString
      | r' => String c r'
      end
  end.

(** [s.split(sep)] for a one-character separator: empty pieces are kept. *)
Fixpoint split_on (sep : ascii) (s : string) : list string :=
  match s with
  | EmptyString => [EmptyString]
  | String c r =>
      if Ascii.eqb c sep then EmptyString :: split_on sep r
      else match split_on sep r with
           | [] => [String c EmptyString]
           | w :: ws => String c w :: ws
           end
  end.

(** [s.split()]: the maximal runs of characters that are not white space. *)
Fixpoint split (s : string) : list string :=
  match s with
  | EmptyString => []
  | String c r =>
      if isspace c then split r
      else match r with
           | EmptyString => [String c EmptyString]
           | String d _ =>
               if isspace d then String c EmptyString :: split r
               else match split r with
                    | [] => [String c EmptyString]
                    | w :: ws => String c w :: ws
                    end
           end
  end.

(** Case of the ASCII letters; no other character is cased in this model. *)
Definition isupper (c : ascii) : bool :=
  let n := nat_of_ascii c in ((65 <=? n) && (n <=? 90))%nat.
Definition islower (c : ascii) : bool :=
  let n := nat_of_ascii c in ((97 <=? n) && (n <=? 122))%nat.
Definition to_upper (c : ascii) : ascii :=
  if islower c then ascii_of_nat (nat_of_ascii c - 32) else c.
Definition to_lower (c : ascii) : ascii :=
  if isupper c then ascii_of_nat (nat_of_ascii c + 32) else c.

(** [s.lower()] *)
Fixpoint lower (s : string) : string :=
  match s with
  | EmptyString => EmptyString
  | String c r => String (to_lower c) (lower r)
  end.

(** [s.title()]: a letter that follows a letter is lowered, any other
    letter is raised. *)
Fixpoint title_from (prev_cased : bool) (s : string) : string :=
  match s with
  | EmptyString => EmptyString
  | String c r =>
      if isupper c || islower c
      then String (if prev_cased then to_lower c else to_upper c) (title_from true r)
      else String c (title_from false r)
  end.
Definition title (s : string) : string := title_from false s.

(** [sub in s] for strings *)
Fixpoint is_infix (sub s : string) : bool :=
  String.prefix sub s
  || match s with
     | EmptyString => false
     | String _ r => is_infix sub r
     end.

(** A string is left-clean when it does not start with white space. *)
Definition lclean (s : string) : Prop := lstrip s = s.
(** A string is right-clean when it does not end with white space. *)
Definition rclean (s : string) : Prop := rstrip s = s.

End Str.

(** ** The bs4 document tree *)

Module Soup.

Inductive tag : Type :=
| Tag (name : string) (attrs : list (string * string)) (contents : list node)
with node : Type :=
| NavigableString (s : string)
| Element (t : tag).

Definition name (t : tag) : string := let 'Tag n _ _ := t in n.
Definition attrs (t : tag) : list (string * string) := let 'Tag _ a _ := t in a.
Definition contents (t : tag) : list node := let 'Tag _ _ c := t in c.

(** [tag.has_attr(key)] *)
Definition has_attr (t : tag) (key : string) : bool :=
  bool_decide (key ∈ (attrs t).*1).

(** [tag.find_all(string=True, recursive=False)]: the navigable strings
    among the direct children, in document order. *)
Fixpoint direct_strings (cs : list node) : list string :=
  match cs with
  | [] => []
  | NavigableString s :: r => s :: direct_strings r
  | Element _ :: r => direct_strings r
  end.

(** [''.join(t.find_all(string=True, recursive=False)).strip().replace('\n', '')] *)
Definition own_text (t : tag) : string :=
  Str.replace Str.newline "" (Str.strip (Str.join (direct_strings (contents t)))).

(** The loop [for child in tag.contents: if isinstance(child, Tag): return ...]
    followed by [return '']. *)
Fixpoint first_tag_text (cs : list node) : string :=
  match cs with
  | [] => ""
  | NavigableString _ :: r => first_tag_text r
  | Element child :: _ => own_text child
  end.

(** [direct_text] of [autodata_scraper.py] and [carsdirectory_scraper.py]. *)
Definition direct_text (t : tag) : string :=
  let result := own_text t in
  if Str.truthy result then result else first_tag_text (contents t).

(** [direct_text] of [theCarSpec_scraper.py], which first tests
    [tag is None]. *)
Definition direct_text_or_none (t : option tag) : string :=
  match t with
  | None => ""
  | Some t => direct_text t
  end.

(** What the specification calls the first child element of a tag. *)
Definition first_child_element (t : tag) : option tag :=
  head (omap (fun n => match n with Element c => Some c | NavigableString _ => None end)
             (contents t)).

(** The tag with every nested tag removed: only its own strings stay. *)
Definition strings_only (t : tag) : tag :=
  Tag (name t) (attrs t) (NavigableString <$> direct_strings (contents t)).

(** Every tag below [t], in document order. *)
Fixpoint descendants (t : tag) : list tag :=
  match t with
  | Tag _ _ cs =>
      (fix go (cs : list node) : list tag :=
         match cs with
         | [] => []
         | NavigableString _ :: r => go r
         | Element c :: r => c :: descendants c ++ go r
         end) cs
  end.

(** [t.find_all(nm)] *)
Definition find_all (t : tag) (nm : string) : list tag :=
  filter (fun c => name c = nm) (descendants t).

(** [t.find(nm)] *)
Definition find (t : tag) (nm : string) : option tag := head (find_all t nm).

End Soup.

(** ** Python dictionaries from [str] to [str], in insertion order *)

Module Dict.

Definition dict : Type := list (string * string).

(** [d.get(k)] *)
Fixpoint get (d : dict) (k : string) : option string :=
  match d with
  | [] => None
  | (k', v) :: r => if decide (k' = k) then Some v else get r k
  end.

(** [k in d] *)
Definition mem (k : string) (d : dict) : bool := bool_decide (is_Some (get d k)).

(** [d[k] = v]: an existing key keeps its place, a new key goes last. *)
Fixpoint set (d : dict) (k v : string) : dict :=
  match d with
  | [] => [(k, v)]
  | (k', v') :: r => if decide (k' = k) then (k', v) :: r else (k', v') :: set r k v
  end.

(** [d.setdefault(k, v)] *)
Definition setdefault (d : dict) (k v : string) : dict :=
  if mem k d then d else set d k v.

(** [list(d.keys())] *)
Definition keys (d : dict) : list string := d.*1.

(** [d.get(k, default)] *)
Definition get_default (d : dict) (k default : string) : string :=
  match get d k with Some v => v | None => default end.

End Dict.

Abbreviation dict := Dict.dict.

(** ** The retrying HTTP session: [requests] over [urllib3.util.retry.Retry]

    A server is the sequence of outcomes it gives to successive requests
    for one URL.  A [Response] is a final response: redirects and the
    sleeps between attempts are outside this model. *)

Module Http.

(** The arguments of [Retry(...)] that the scrapers set.  [connect] and
    [read] are [None] when left to their default. *)
Record Retry : Type := {
  total : nat;
  connect : option nat;
  read : option nat;
  status_forcelist : list Z
}.

Inductive outcome : Type :=
| Response (status : Z) (retry_after : bool) (text : string)
| ConnectionFailed
| ReadFailed.

(** What [session.get] ends with: a response, or [MaxRetryError]. *)
Inductive reply : Type :=
| Responded (status : Z) (text : string)
| MaxRetryError.

Definition RETRY_AFTER_STATUS_CODES : list Z := [413; 429; 503]%Z.

(** [Retry.is_retry] for a GET: the status is in a non-empty force list,
    or retries remain and the response of a 413, 429 or 503 carries a
    [Retry-After] header. *)
Definition is_retry (total : nat) (forcelist : list Z) (status : Z)
    (has_retry_after : bool) : bool :=
  bool_decide (status ∈ forcelist)
  || (bool_decide (0 < total) && has_retry_after
      && bool_decide (status ∈ RETRY_AFTER_STATUS_CODES)).

(** One unit taken from a per-kind budget; [None] when the budget is
    exhausted by it. *)
Definition spend (budget : option nat) : option (option nat) :=
  match budget with
  | None => Some None
  | Some 0 => None
  | Some (S n) => Some (Some n)
  end.

(** The request loop of [urlopen]: [i] requests were issued before; the
    result carries the number of requests issued in all. *)
Fixpoint urlopen (total : nat) (connect read : option nat) (forcelist : list Z)
    (server : nat -> outcome) (i : nat) : reply * nat :=
  match server i with
  | Response status has_retry_after text =>
      if is_retry total forcelist status has_retry_after then
        match total with
        | 0 => (MaxRetryError, S i)
        | S t => urlopen t connect read forcelist server (S i)
        end
      else (Responded status text, S i)
  | ConnectionFailed =>
      match total, spend connect with
      | S t, Some connect' => urlopen t connect' read forcelist server (S i)
      | _, _ => (MaxRetryError, S i)
      end
  | ReadFailed =>
      match total, spend read with
      | S t, Some read' => urlopen t connect read' forcelist server (S i)
      | _, _ => (MaxRetryError, S i)
      end
  end.

(** [r.raise_for_status()] raises for the 4xx and 5xx statuses. *)
Definition raise_for_status (status : Z) : bool :=
  bool_decide (400 <= status < 600)%Z.

(** [download_page]: the text of the page or [None], with the number of
    requests that were issued.  The [session] global is [None] until
    [init_session] ran. *)
Definition download_page (session : option Retry) (server : nat -> outcome)
    : option string * nat :=
  match session with
  | None => (None, 0)
  | Some r =>
      match urlopen (total r) (connect r) (read r) (status_forcelist r) server 0 with
      | (Responded status text, n) =>
          if raise_for_status status then (None, n) else (Some text, n)
      | (MaxRetryError, n) => (None, n)
      end
  end.

End Http.

(** ** Pickle files, the file system and the log *)

(** The objects a pickle file may decode to: a list of records, a
    sequence of records that is not a list, or an object without
    [len()]. *)
Inductive pyobj : Type :=
| PyList (cars : list dict)
| PyTuple (cars : list dict)
| PyInt (n : Z).

(** [isinstance(o, list)] *)
Definition isinstance_list (o : pyobj) : bool :=
  match o with PyList _ => true | _ => false end.

(** [len(o)]; [None] stands for the [TypeError]. *)
Definition len (o : pyobj) : option nat :=
  match o with
  | PyList cars | PyTuple cars => Some (length cars)
  | PyInt _ => None
  end.

(** The records that [for car in o] visits; [None] stands for the
    [TypeError]. *)
Definition records (o : pyobj) : option (list dict) :=
  match o with
  | PyList cars | PyTuple cars => Some cars
  | PyInt _ => None
  end.

(** [pickle] is used as a black box: [dump] gives the content of the
    file, [load] gives the object back or raises ([None]), and loading
    what was dumped gives the object that was dumped. *)
Class Pickle (wire : Type) : Type := {
  dump : pyobj -> wire;
  load : wire -> option pyobj;
  load_dump : forall o, load (dump o) = Some o
}.

(** The simplest file content that fits: a pickled object or garbage. *)
Inductive blob : Type :=
| Garbage
| Pickled (o : pyobj).

#[export] Instance blob_pickle : Pickle blob := {|
  dump := Pickled;
  load := fun b => match b with Garbage => None | Pickled o => Some o end;
  load_dump := fun o => eq_refl
|}.

(** [Pool.imap_unordered] gives the results in the order in which the
    workers finish. *)
Class Pool : Type := {
  imap_unordered : forall {A B : Type}, (A -> B) -> list A -> list B;
  imap_unordered_perm :
    forall (A B : Type) (f : A -> B) (args : list A), imap_unordered f args ≡ₚ f <$> args
}.

(** A pool whose workers finish in the order of the arguments. *)
#[export] Instance in_order : Pool := {|
  imap_unordered := fun A B f args => f <$> args;
  imap_unordered_perm := fun A B f args => reflexivity (f <$> args)
|}.

(** [pool_map]: the results are appended as they arrive. *)
Definition pool_map `{Pool} {A B : Type} (fn : A -> B) (args : list A) : list B :=
  imap_unordered fn args.

Inductive stage : Type := Brands | Models | Generations | Variants | Details.

(** What a run did, in the order in which it did it.  [Ran s n]: stage
    [s] ran and its aggregated output has [n] items.  [PickleFailed] and
    [CsvFailed]: opening the file for writing raised. *)
Inductive event : Type :=
| Ran (s : stage) (outputs : nat)
| PickleDumped
| PickleFailed
| PickleRemoved
| CsvWritten
| CsvFailed.

#[export] Instance stage_eq_dec : EqDecision stage.
Proof. solve_decision. Defined.

#[export] Instance event_eq_dec : EqDecision event.
Proof. solve_decision. Defined.

(** A table file: the header and the rows. *)
Definition table : Type := list (list string).

(** The pickle file and the CSV file of a script ([None]: the file does
    not exist), whether each can be opened for writing, and the log. *)
Record world (wire : Type) : Type := World {
  pickle_file : option wire;
  csv_file : option table;
  pickle_writable : bool;
  csv_writable : bool;
  log : list event
}.
Arguments World {wire}.
Arguments pickle_file {wire}.
Arguments csv_file {wire}.
Arguments pickle_writable {wire}.
Arguments csv_writable {wire}.
Arguments log {wire}.

Definition record_event {wire} (e : event) (w : world wire) : world wire :=
  World (pickle_file w) (csv_file w) (pickle_writable w) (csv_writable w)
        (log w ++ [e]).

(** How [main] ends: it reaches its last line, it returns early, or an
    exception escapes. *)
Inductive exit : Type := Finished | Returned | Raised.

(** [with open(path, 'wb') as f: pickle.dump(cars, f)]; the flag tells
    whether it went through, [false] standing for the exception. *)
Definition pickle_dump `{Pickle wire} (cars : list dict) (w : world wire)
    : bool * world wire :=
  if pickle_writable w then
    (true, World (Some (dump (PyList cars))) (csv_file w) (pickle_writable w)
                 (csv_writable w) (log w ++ [PickleDumped]))
  else (false, record_event PickleFailed w).

(** [with open(path, 'rb') as f: return pickle.load(f)]; [None] when the
    file is missing or [pickle.load] raises. *)
Definition pickle_load `{Pickle wire} (w : world wire) : option pyobj :=
  pickle_file w ≫= load.

(** [path.unlink()], [os.remove(path)] *)
Definition unlink {wire} (w : world wire) : world wire :=
  World None (csv_file w) (pickle_writable w) (csv_writable w)
        (log w ++ [PickleRemoved]).

(** [csv.DictWriter.writerow]: the value of each field, [''] when the
    record lacks it. *)
Definition csv_row (fieldnames : list string) (car : dict) : list string :=
  (fun key => Dict.get_default car key "") <$> fieldnames.

(** [with open(path, 'w') as f: ... writer.writeheader();
    writer.writerows(cars)]; the flag is as for [pickle_dump]. *)
Definition csv_write {wire} (fieldnames : list string) (cars : list dict)
    (w : world wire) : bool * world wire :=
  if csv_writable w then
    (true, World (pickle_file w) (Some (fieldnames :: (csv_row fieldnames <$> cars)))
                 (pickle_writable w) (csv_writable w) (log w ++ [CsvWritten]))
  else (false, record_event CsvFailed w).

(** The keys of all records, as [all_keys.update(car.keys())] collects
    them. *)
Definition all_keys (cars : list dict) : gset string :=
  foldl (fun keys car => keys ∪ list_to_set (Dict.keys car)) ∅ cars.

(** ** [autodata_scraper.py] *)

Module Autodata.

(** [init_session]: [Retry(total=5, connect=5, read=5, backoff_factor=1)] *)
Definition init_session : Http.Retry :=
  {| Http.total := 5; Http.connect := Some 5; Http.read := Some 5;
     Http.status_forcelist := [] |}.

(** The body of the loop of [parse_car] over the rows of the table.  A
    row with a [class] is passed over; a failed [assert] is logged and
    the row is dropped. *)
Definition parse_row (attributes : dict) (row : Soup.tag) : dict :=
  if Soup.has_attr row "class" then attributes
  else
    match Soup.find row "th" with
    | None => attributes
    | Some key_tag =>
        let key := Soup.direct_text key_tag in
        match Soup.find row "td" with
        | None => attributes
        | Some value_tag =>
            let value := Soup.direct_text value_tag in
            if Dict.mem key attributes then attributes
            else Dict.set attributes key value
        end
    end.

(** [parse_car].  [table] is what downloading the page and looking up
    the details table give: [None] when either fails, and the record is
    then empty. *)
Definition parse_car (table : option Soup.tag) : dict :=
  match table with
  | None => []
  | Some table => foldl parse_row [] (Soup.find_all table "tr")
  end.

Definition priority_keys : list string :=
  ["Brand"; "Model"; "Generation"; "Start of production";
   "End of production"; "Modification (Engine)"; "Powertrain Architecture";
   "Body type"; "Fuel Type"; "Max. weight"; "Length"; "Width"; "Height"].

Definition fieldnames (cars : list dict) : list string :=
  priority_keys ++ filter (fun k => k ∉ priority_keys) (elements (all_keys cars)).

(** [for key in fieldnames: car.setdefault(key, '')] *)
Definition pad (names : list string) (car : dict) : dict :=
  foldl (fun car key => Dict.setdefault car key "") car names.

(** The web site, as the stage functions see it: the links each stage
    finds on a page, and the details table of a variant page. *)
Record site : Type := {
  parse_brands : string -> list string;
  parse_models : string -> list string;
  parse_generations : string -> list string;
  parse_variants : string -> list string;
  details_table : string -> option Soup.tag
}.

Definition URL : string := "https://www.auto-data.net/en/".

Section Run.
Context {wire : Type} `{Pickle wire} `{Pool} (web : site).

(** [write_to_csv]: the records are padded in place, before the file is
    opened, so the padded records are returned with the flag and the
    world. *)
Definition write_to_csv (cars : list dict) (w : world wire)
    : list dict * (bool * world wire) :=
  let names := fieldnames cars in
  let cars := pad names <$> cars in
  (cars, csv_write names cars w).

Definition write_pickle (cars : list dict) (w : world wire) : bool * world wire :=
  pickle_dump cars w.

Definition read_pickle (w : world wire) : option pyobj := pickle_load w.

(** The aggregated output of each stage, given that the stage runs. *)
Definition brand_links : list string := parse_brands web URL.
Definition model_links : list string :=
  concat (pool_map (parse_models web) brand_links).
Definition generation_links : list string :=
  concat (pool_map (parse_generations web) model_links).
Definition variant_links : list string :=
  concat (pool_map (parse_variants web) generation_links).
Definition cars : list dict :=
  pool_map (fun link => parse_car (details_table web link)) variant_links.

(** The size of the aggregated output of a stage. *)
Definition output_size (s : stage) : nat :=
  match s with
  | Brands => length brand_links
  | Models => length model_links
  | Generations => length generation_links
  | Variants => length variant_links
  | Details => length cars
  end.

(** [parse_cars]: [None] as soon as a stage comes back empty. *)
Definition parse_cars (w : world wire) : option (list dict) * world wire :=
  let w := record_event (Ran Brands (length brand_links)) w in
  if bool_decide (length brand_links < 1) then (None, w) else
  let w := record_event (Ran Models (length model_links)) w in
  if bool_decide (length model_links < 1) then (None, w) else
  let w := record_event (Ran Generations (length generation_links)) w in
  if bool_decide (length generation_links < 1) then (None, w) else
  let w := record_event (Ran Variants (length variant_links)) w in
  if bool_decide (length variant_links < 1) then (None, w) else
  let w := record_event (Ran Details (length cars)) w in
  if bool_decide (length cars < 1) then (None, w) else
  (Some cars, w).

(** [main].  With a cached pickle nothing is caught; after a scrape the
    exception of either write is caught and logged, and the run goes on. *)
Definition main (w : world wire) : exit * world wire :=
  match pickle_file w with
  | Some _ =>
      match read_pickle w with
      | None => (Raised, w)
      | Some loaded =>
          match len loaded, records loaded with
          | Some _, Some cars =>
              let '(_, (written, w)) := write_to_csv cars w in
              (if written then Finished else Raised, w)
          | _, _ => (Raised, w)
          end
      end
  | None =>
      match parse_cars w with
      | (None, w) => (Returned, w)
      | (Some cars, w) =>
          let w := (write_pickle cars w).2 in
          let w := (write_to_csv cars w).2.2 in
          (Finished, w)
      end
  end.

End Run.

End Autodata.

(** ** [carsdirectory_scraper.py] *)

Module CarsDirectory.

Record VariantPage : Type := {
  brand : string;
  model : string;
  variant_link : string
}.

(** The body of the loop of [parse_car]: a row without a [th] or without
    a [td] is passed over. *)
Definition parse_row (attributes : dict) (row : Soup.tag) : dict :=
  match Soup.find row "th", Soup.find row "td" with
  | Some key_tag, Some value_tag =>
      let key := Soup.direct_text key_tag in
      let value := Soup.direct_text value_tag in
      if Dict.mem key attributes then attributes
      else Dict.set attributes key value
  | _, _ => attributes
  end.

(** [parse_car]; [table] is as for [Autodata.parse_car]. *)
Definition parse_car (variant_page : VariantPage) (table : option Soup.tag) : dict :=
  match table with
  | None => []
  | Some table =>
      foldl parse_row
        [("Brand", brand variant_page); ("BrandModel", model variant_page)]
        (Soup.find_all table "tr")
  end.

End CarsDirectory.

(** ** [theCarSpec_scraper.py] *)

Module TheCarSpec.

(** [init_session]: [Retry(total=5, connect=5, read=5, backoff_factor=1,
    status_forcelist=[429, 500, 502, 503, 504])] *)
Definition init_session : Http.Retry :=
  {| Http.total := 5; Http.connect := Some 5; Http.read := Some 5;
     Http.status_forcelist := [429; 500; 502; 503; 504]%Z |}.

Definition priority_keys : list string :=
  ["Brand"; "Model"; "Version"; "Year production start"; "Engine version";
   "Fuel type"; "Power (hp)"; "Top Speed"; "Curb weight (kg)"; "URL"].

Definition fieldnames (cars : list dict) : list string :=
  priority_keys ++ filter (fun k => k ∉ priority_keys) (elements (all_keys cars)).

(** The web site, as the stage functions see it; [parse_car] gives
    [None] for a page without a usable record. *)
Record site : Type := {
  parse_brands : string -> list string;
  parse_models : string -> list string;
  parse_variants : string -> list string;
  parse_car : string -> option dict
}.

Definition BASE_URL : string := "https://www.thecarspec.net".

(** The least number of records of a cached pickle that is kept. *)
Definition min_records : Z := 100.

Section Run.
Context {wire : Type} `{Pickle wire} `{Pool} (web : site).

(** [write_to_csv]: nothing is written for an empty list. *)
Definition write_to_csv (cars : list dict) (w : world wire)
    : list dict * (bool * world wire) :=
  match cars with
  | [] => (cars, (true, w))
  | _ =>
      let names := fieldnames cars in
      let cars := Autodata.pad names <$> cars in
      (cars, csv_write names cars w)
  end.

Definition write_pickle (cars : list dict) (w : world wire) : bool * world wire :=
  pickle_dump cars w.

Definition read_pickle (w : world wire) : option pyobj := pickle_load w.

Definition brand_links : list string := parse_brands web BASE_URL.
Definition model_links : list string :=
  concat (pool_map (parse_models web) brand_links).
Definition variant_links : list string :=
  concat (pool_map (parse_variants web) model_links).
(** [[c for c in cars_nested if c is not None]] *)
Definition cars : list dict :=
  omap id (pool_map (parse_car web) variant_links).

(** The size of the aggregated output of a stage; this site has no
    generations stage. *)
Definition output_size (s : stage) : nat :=
  match s with
  | Brands => length brand_links
  | Models => length model_links
  | Generations => length model_links
  | Variants => length variant_links
  | Details => length cars
  end.

Definition parse_cars (w : world wire) : option (list dict) * world wire :=
  let w := record_event (Ran Brands (length brand_links)) w in
  if bool_decide (length brand_links < 1) then (None, w) else
  let w := record_event (Ran Models (length model_links)) w in
  if bool_decide (length model_links < 1) then (None, w) else
  let w := record_event (Ran Variants (length variant_links)) w in
  if bool_decide (length variant_links < 1) then (None, w) else
  let w := record_event (Ran Details (length cars)) w in
  if bool_decide (length cars < 1) then (None, w) else
  (Some cars, w).

(** The first part of [main]: a cached pickle that does not load, is not
    a list or is short is removed. *)
Definition check_pickle (w : world wire) : world wire :=
  match pickle_file w with
  | None => w
  | Some content =>
      match load content with
      | None => unlink w
      | Some cached =>
          if negb (isinstance_list cached) then unlink w
          else
            match len cached with
            | None => unlink w
            | Some n => if bool_decide (Z.of_nat n < min_records)%Z then unlink w else w
            end
      end
  end.

(** [main].  After a scrape the exception of either write is caught and
    logged; with a cached pickle any exception makes [main] return. *)
Definition main (w : world wire) : exit * world wire :=
  let w := check_pickle w in
  match pickle_file w with
  | None =>
      match parse_cars w with
      | (None, w) => (Returned, w)
      | (Some cars, w) =>
          let w := (write_pickle cars w).2 in
          let w := (write_to_csv cars w).2.2 in
          (Finished, w)
      end
  | Some _ =>
      match read_pickle w with
      | None => (Returned, w)
      | Some loaded =>
          match len loaded, records loaded with
          | Some _, Some cars =>
              let '(_, (written, w)) := write_to_csv cars w in
              (if written then Finished else Returned, w)
          | _, _ => (Returned, w)
          end
      end
  end.

End Run.

End TheCarSpec.

(** ** [thecarSpec_scraper2.py] *)

Module TheCarSpec2.

(** [Retry(total=3, backoff_factor=1, status_forcelist=[429, 500, 502,
    503, 504])] *)
Definition session : Http.Retry :=
  {| Http.total := 3; Http.connect := None; Http.read := None;
     Http.status_forcelist := [429; 500; 502; 503; 504]%Z |}.

(** A row of a details table: the cleaned text of its [th] and the
    cleaned text of its [td], each when the row has one. *)
Record row : Type := {
  row_th : option string;
  row_td : option string
}.

(** A downloaded detail page: the version that the [h5] title gives,
    when it gives one, and the rows of all its sections, in document
    order. *)
Record page : Type := {
  page_version : option string;
  page_rows : list row
}.

(** What [get_car_data] ends with: a record, [None], or the [IndexError]
    of [value.split()[0]]. *)
Inductive extracted : Type :=
| Extracted (data : dict)
| NoRecord
| IndexError.

(** The body of the loop over the rows; [None] stands for the
    [IndexError]. *)
Definition store_row (data : dict) (r : row) : option dict :=
  match row_th r, row_td r with
  | Some key, Some value =>
      if decide (key = "Brand") then Some (Dict.set data "Brand" value)
      else if decide (key = "Model") then Some (Dict.set data "Model" value)
      else if decide (key = "Year production start")
           then Some (Dict.set data "Year production start" value)
      else if decide (key = "Fuel type") then Some (Dict.set data "Fuel type" value)
      else if (bool_decide (key = "Power (hp)") && Str.is_infix "Power (hp)" key)
              || Str.is_infix "horsepower" (Str.lower key)
           then Some (Dict.set data "Power (hp)" value)
      else if decide (key = "Curb weight kg -lbs total")
           then match Str.split value with
                | [] => None
                | kg :: _ => Some (Dict.set data "Curb weight (kg)" kg)
                end
      else Some (Dict.set data key value)
  | _, _ => Some data
  end.

Definition store_rows (data : dict) (rows : list row) : option dict :=
  foldl (fun acc r => acc ≫= fun data => store_row data r) (Some data) rows.

Definition get_car_data (detail_url : string) (html : option page) : extracted :=
  match html with
  | None => NoRecord
  | Some p =>
      let data := [("URL", detail_url)] in
      let data :=
        match page_version p with
        | Some version => Dict.set data "Version" version
        | None => data
        end in
      match store_rows data (page_rows p) with
      | None => IndexError
      | Some data =>
          if bool_decide (6 < length data) && Dict.mem "Version" data
          then Extracted data else NoRecord
      end
  end.

(** The loop that adds [Brand] and [Model] from the URL; [None] stands
    for the [KeyError] of [car["URL"]]. *)
Definition backfill (car : dict) : option dict :=
  if negb (Dict.mem "Brand" car) || negb (Dict.mem "Model" car) then
    match Dict.get car "URL" with
    | None => None
    | Some url =>
        let parts := Str.split_on Str.slash (Str.rstrip_char Str.slash url) in
        if bool_decide (6 <= length parts) then
          let car := Dict.set car "Brand"
            (Str.title (Str.replace "-" " " (nth (length parts - 4) parts ""))) in
          let car := Dict.set car "Model"
            (Str.title (Str.replace "-" " " (nth (length parts - 3) parts ""))) in
          Some car
        else Some car
    end
  else Some car.

Definition priority : list string :=
  ["Brand"; "Model"; "Version"; "Year production start"; "Engine version";
   "Fuel type"; "Power (hp)"; "Top Speed"; "Curb weight (kg)"; "URL"].

(** The union of the key sets of the records, as [set().union] of all
    of them gives it. *)
Definition union_keys (cars : list dict) : gset string :=
  ⋃ ((fun car => list_to_set (Dict.keys car)) <$> cars).

Definition fieldnames (cars : list dict) : list string :=
  filter (fun k => k ∈ union_keys cars) priority
  ++ merge_sort String.le (filter (fun k => k ∉ priority) (elements (union_keys cars))).

(** The web site: the brands (name and link), the links found on a brand
    page and on a model page, and the detail pages. *)
Record site : Type := {
  get_brands : list (string * string);
  get_models : string -> list string;
  get_variants : string -> list string;
  detail_page : string -> option page
}.

(** The least number of records of a cached pickle that is kept. *)
Definition min_records : Z := 10000.

Section Run.
Context {wire : Type} `{Pickle wire} (web : site).

(** The first part of [main]: a cached pickle that does not load or is
    short is removed. *)
Definition check_pickle (w : world wire) : world wire :=
  match pickle_file w with
  | None => w
  | Some content =>
      match load content with
      | None => unlink w
      | Some test =>
          match len test with
          | None => unlink w
          | Some n => if bool_decide (Z.of_nat n < min_records)%Z then unlink w else w
          end
      end
  end.

(** The last part of [main]: the CSV file.  Nothing is caught. *)
Definition write_csv (cars : list dict) (w : world wire) : exit * world wire :=
  let '(written, w) := csv_write (fieldnames cars) cars w in
  (if written then Finished else Raised, w).

Definition all_models : list string := concat (get_models web <$> (get_brands web).*2).
Definition all_variants : list string := concat (get_variants web <$> all_models).
Definition results : list extracted :=
  (fun url => get_car_data url (detail_page web url)) <$> all_variants.

(** [[c for c in results if c is not None]]; [None] when a call of
    [get_car_data] raised, which [pool.map] raises again. *)
Fixpoint collect (results : list extracted) : option (list dict) :=
  match results with
  | [] => Some []
  | IndexError :: _ => None
  | NoRecord :: rest => collect rest
  | Extracted data :: rest => cons data <$> collect rest
  end.

Definition main (w : world wire) : exit * world wire :=
  let w := check_pickle w in
  match pickle_file w with
  | None =>
      let brands := get_brands web in
      let w := record_event (Ran Brands (length brands)) w in
      match brands with
      | [] => (Returned, w)
      | _ =>
          let w := record_event (Ran Models (length all_models)) w in
          let w := record_event (Ran Variants (length all_variants)) w in
          match collect results with
          | None => (Raised, w)
          | Some cars =>
              let w := record_event (Ran Details (length cars)) w in
              match mapM backfill cars with
              | None => (Raised, w)
              | Some cars =>
                  match pickle_dump cars w with
                  | (false, w) => (Raised, w)
                  | (true, w) => write_csv cars w
                  end
              end
          end
      end
  | Some _ =>
      match pickle_load w ≫= records with
      | None => (Raised, w)
      | Some cars => write_csv cars w
      end
  end.

End Run.

End TheCarSpec2.

(** ** Notions of the specification *)

(** The field names in the order in which they are first seen, going
    through the records in order. *)
Fixpoint first_seen_from (seen : list string) (ks : list string) : list string :=
  match ks with
  | [] => []
  | k :: r =>
      if decide (k ∈ seen) then first_seen_from seen r
      else k :: first_seen_from (k :: seen) r
  end.

Definition first_seen (cars : list dict) : list string :=
  first_seen_from [] (concat (Dict.keys <$> cars)).

(** The column order as the specification words it: the priority list
    filtered to the fields that are present, then the other fields in
    first-seen order. *)
Definition spec_columns (priority : list string) (cars : list dict) : list string :=
  filter (fun k => k ∈ first_seen cars) priority
  ++ filter (fun k => k ∉ priority) (first_seen cars).

(** First write wins: every field of [record] has the first value that
    the sequence [writes] of (name, value) pairs carries for it. *)
Definition first_write_wins (writes : list (string * string)) (record : dict) : Prop :=
  forall k, Dict.get record k = Dict.get writes k.

(** The (name, value) pair that a row of an auto-data table carries, when
    it carries one. *)
Definition autodata_row_write (row : Soup.tag) : option (string * string) :=
  if Soup.has_attr row "class" then None
  else
    match Soup.find row "th", Soup.find row "td" with
    | Some key_tag, Some value_tag =>
        Some (Soup.direct_text key_tag, Soup.direct_text value_tag)
    | _, _ => None
    end.

(** The same for a row of a cars-directory table. *)
Definition carsdirectory_row_write (row : Soup.tag) : option (string * string) :=
  match Soup.find row "th", Soup.find row "td" with
  | Some key_tag, Some value_tag =>
      Some (Soup.direct_text key_tag, Soup.direct_text value_tag)
  | _, _ => None
  end.

(** The strings that a tag owns directly: those of its children that are
    strings, in document order.  The strings of a nested tag are not
    among them. *)
Definition owned_strings (t : Soup.tag) : list string :=
  omap (fun n => match n with
                 | Soup.NavigableString s => Some s
                 | Soup.Element _ => None
                 end)
       (Soup.contents t).

(** The text owned directly by a tag, as the specification words it: the
    strings it owns, put together. *)
Definition owned_text (t : Soup.tag) : string := String.concat "" (owned_strings t).

(** A string is clean when it holds no newline and [strip] leaves it as
    it is. *)
Definition clean (s : string) : Prop :=
  Str.contains Str.newline s = false /\ Str.strip s = s.

(** The stages of a crawl in the order in which they run. *)
Definition stage_index (s : stage) : nat :=
  match s with
  | Brands => 0 | Models => 1 | Generations => 2 | Variants => 3 | Details => 4
  end.

(** The stages that a log shows to have run, and whether a log shows a
    file to have been written. *)
Definition ran (events : list event) : list stage :=
  omap (fun e => match e with Ran s _ => Some s | _ => None end) events.

Definition wrote (events : list event) : bool :=
  bool_decide (PickleDumped ∈ events \/ CsvWritten ∈ events).

(** ** Sites and files for the examples *)

(** An auto-data site with one brand, one model, one generation and one
    variant, whose details table has one row. *)
Definition one_car_site : Autodata.site :=
  {| Autodata.parse_brands := fun _ => ["https://www.auto-data.net/en/audi-brand-41"];
     Autodata.parse_models := fun _ => ["https://www.auto-data.net/en/audi-a4-model-74"];
     Autodata.parse_generations := fun _ => ["https://www.auto-data.net/en/audi-a4-b9"];
     Autodata.parse_variants := fun _ => ["https://www.auto-data.net/en/audi-a4-b9-2.0"];
     Autodata.details_table := fun _ =>
       Some (Soup.Tag "table" [("class", "cardetailsout car2")]
               [Soup.Element
                  (Soup.Tag "tr" []
                     [Soup.Element (Soup.Tag "th" [] [Soup.NavigableString "Brand"]);
                      Soup.Element (Soup.Tag "td" [] [Soup.NavigableString "Audi"])])]) |}.

(** A thecarspec site with one brand, one model and one variant whose
    page cannot be downloaded. *)
Definition one_brand_site : TheCarSpec.site :=
  {| TheCarSpec.parse_brands := fun _ => ["https://www.thecarspec.net/model/abarth"];
     TheCarSpec.parse_models := fun _ => ["https://www.thecarspec.net/cars/abarth-124"];
     TheCarSpec.parse_variants := fun _ => ["https://www.thecarspec.net/car-detail/124-gt"];
     TheCarSpec.parse_car := fun _ => None |}.

(** A thecarspec site with one brand whose page shows no model. *)
Definition no_models_site : TheCarSpec2.site :=
  {| TheCarSpec2.get_brands := [("Abarth", "https://www.thecarspec.net/model/abarth")];
     TheCarSpec2.get_models := fun _ => [];
     TheCarSpec2.get_variants := fun _ => [];
     TheCarSpec2.detail_page := fun _ => None |}.

(** A thecarspec site with one brand and one model whose page shows no
    variant. *)
Definition no_variants_site : TheCarSpec2.site :=
  {| TheCarSpec2.get_brands := [("Abarth", "https://www.thecarspec.net/model/abarth")];
     TheCarSpec2.get_models := fun _ => ["https://www.thecarspec.net/cars/abarth-124"];
     TheCarSpec2.get_variants := fun _ => [];
     TheCarSpec2.detail_page := fun _ => None |}.

(** A thecarspec site with one brand, one model and one variant, whose
    detail page gives a record of seven fields. *)
Definition one_car_site2 : TheCarSpec2.site :=
  {| TheCarSpec2.get_brands := [("Abarth", "https://www.thecarspec.net/model/abarth")];
     TheCarSpec2.get_models := fun _ => ["https://www.thecarspec.net/cars/abarth-124"];
     TheCarSpec2.get_variants := fun _ => ["https://www.thecarspec.net/car-detail/124-gt"];
     TheCarSpec2.detail_page := fun _ =>
       Some {| TheCarSpec2.page_version := Some "124 GT 2018";
               TheCarSpec2.page_rows :=
                 [ {| TheCarSpec2.row_th := Some "Brand"; TheCarSpec2.row_td := Some "Abarth" |};
                   {| TheCarSpec2.row_th := Some "Model"; TheCarSpec2.row_td := Some "124" |};
                   {| TheCarSpec2.row_th := Some "Fuel type"; TheCarSpec2.row_td := Some "Petrol" |};
                   {| TheCarSpec2.row_th := Some "Doors"; TheCarSpec2.row_td := Some "2" |};
                   {| TheCarSpec2.row_th := Some "Seats"; TheCarSpec2.row_td := Some "2" |} ] |} |}.

(** Five records, and a world whose pickle file holds them. *)
Definition five_records : list dict := replicate 5 [("Brand", "Audi")].

Definition five_records_cached : world blob :=
  World (Some (Pickled (PyList five_records))) None true true [].

(** A world without files. *)
Definition no_files : world blob := World None None true true [].


(** ** Further parts of [theCarSpec_scraper.py] *)

Module TheCarSpecPages.

(** The body of the loop of [parse_brands] that drops the links seen
    before: [seen] is the set, [unique_brands] the list. *)
Definition dedupe_step (state : gset string * list string) (b : string)
    : gset string * list string :=
  if decide (b ∈ state.1) then state
  else (state.1 ∪ {[b]}, (state.2 ++ [b])%list).

(** The end of [parse_brands], from the list [brands] that the loop over
    the [h3] headings gathered: the repeated links are dropped, and with
    [TEST_MODE] only the first two are kept. *)
Definition unique_brands (TEST_MODE : bool) (brands : list string) : list string :=
  let unique_brands := (foldl dedupe_step (∅, []) brands).2 in
  if TEST_MODE then take 2 unique_brands else unique_brands.

(** [" ".join(value.split())], which [parse_car] applies to the text of
    a [td] before it looks at the label. *)
Definition normalise (value : string) : string := String.concat " " (Str.split value).

(** The body of the loop of [parse_car] over the rows, on the rows as
    [TheCarSpec2.row] gives them; [None] stands for the [IndexError] of
    [value.split()[0]]. *)
Definition store_row (data : dict) (r : TheCarSpec2.row) : option dict :=
  match TheCarSpec2.row_th r, TheCarSpec2.row_td r with
  | Some key, Some value =>
      if decide (key = "Brand") then Some (Dict.set data "Brand" value)
      else if decide (key = "Model") then Some (Dict.set data "Model" value)
      else if decide (key = "Year production start")
           then Some (Dict.set data "Year production start" value)
      else if decide (key = "Fuel type") then Some (Dict.set data "Fuel type" value)
      else if Str.is_infix "Power (hp)" key || Str.is_infix "horsepower" (Str.lower key)
           then Some (Dict.set data "Power (hp)" value)
      else if decide (key = "Curb weight kg -lbs total")
           then if Str.truthy value
                then match Str.split value with
                     | [] => None
                     | kg :: _ => Some (Dict.set data "Curb weight (kg)" kg)
                     end
                else Some (Dict.set data "Curb weight (kg)" value)
      else if Dict.mem key data then Some data
      else Some (Dict.set data key value)
  | _, _ => Some data
  end.

Definition store_rows (data : dict) (rows : list TheCarSpec2.row) : option dict :=
  foldl (fun acc r => acc ≫= fun data => store_row data r) (Some data) rows.

(** [parse_car], on the page as [TheCarSpec2.page] gives it. *)
Definition parse_car (detail_url : string) (html : option TheCarSpec2.page)
    : TheCarSpec2.extracted :=
  match html with
  | None => TheCarSpec2.NoRecord
  | Some p =>
      let data := [("URL", detail_url)] in
      let data :=
        match TheCarSpec2.page_version p with
        | Some version => Dict.set data "Version" version
        | None => data
        end in
      match store_rows data (TheCarSpec2.page_rows p) with
      | None => TheCarSpec2.IndexError
      | Some data =>
          if bool_decide (6 < length data) && Dict.mem "Version" data
          then TheCarSpec2.Extracted data else TheCarSpec2.NoRecord
      end
  end.

End TheCarSpecPages.

(** The fields that [parse_car] of [theCarSpec_scraper.py] and
    [get_car_data] write whatever the record holds. *)
Definition special_fields : list string :=
  ["Brand"; "Model"; "Year production start"; "Fuel type"; "Power (hp)";
   "Curb weight (kg)"].

(** The label of the row whose value is cut to its first word. *)
Definition curb_weight_label : string := "Curb weight kg -lbs total".

(** A row that makes [get_car_data] raise: the label of the curb weight
    with a value that holds no word. *)
Definition blank_curb_weight (r : TheCarSpec2.row) : Prop :=
  TheCarSpec2.row_th r = Some curb_weight_label
  /\ exists value, TheCarSpec2.row_td r = Some value /\ Str.split value = [].

(** ** The crawl of [carsdirectory_scraper.py] *)

Module CarsDirectoryCrawl.

Record BrandPage : Type := {
  brand : string;
  brand_link : string
}.

Record ModelPage : Type := {
  model_brand : string;
  model : string;
  model_link : string
}.

Record GenerationPage : Type := {
  generation_brand : string;
  generation_model : string;
  generation_link : string
}.

(** The web site, as the stage functions see it: the name and the
    link of every card of the front page and of a brand page that has
    both, the link of every card of a model page, the link of every
    anchor of the variants table of a generation page, and the details
    table of a variant page.  A page that cannot be downloaded or has no
    container shows nothing. *)
Record site : Type := {
  brand_cards : string -> list (string * string);
  model_cards : string -> list (string * string);
  generation_cards : string -> list string;
  variant_anchors : string -> list string;
  details_table : string -> option Soup.tag
}.

Definition URL : string := "https://www.cars-directory.net/car-specs/".

Section Crawl.
Context `{Pool} (web : site).

Definition parse_brands (link : string) : list BrandPage :=
  (fun card => {| brand := card.1; brand_link := card.2 |}) <$> brand_cards web link.

Definition parse_models (brand_page : BrandPage) : list ModelPage :=
  (fun card => {| model_brand := brand brand_page; model := card.1; model_link := card.2 |})
    <$> model_cards web (brand_link brand_page).

Definition parse_generations (model_page : ModelPage) : list GenerationPage :=
  (fun link => {| generation_brand := model_brand model_page;
                  generation_model := model model_page;
                  generation_link := link |})
    <$> generation_cards web (model_link model_page).

Definition parse_variants (generation_page : GenerationPage)
    : list CarsDirectory.VariantPage :=
  (fun link => {| CarsDirectory.brand := generation_brand generation_page;
                  CarsDirectory.model := generation_model generation_page;
                  CarsDirectory.variant_link := link |})
    <$> variant_anchors web (generation_link generation_page).

Definition parse_car (variant_page : CarsDirectory.VariantPage) : dict :=
  CarsDirectory.parse_car variant_page
    (details_table web (CarsDirectory.variant_link variant_page)).

(** [flatten] *)
Definition flatten {T : Type} (lists : list (list T)) : list T := concat lists.

(** The aggregated output of each stage, given that the stage runs. *)
Definition brand_links : list BrandPage := parse_brands URL.
Definition model_links : list ModelPage :=
  flatten (pool_map parse_models brand_links).
Definition generation_links : list GenerationPage :=
  flatten (pool_map parse_generations model_links).
Definition variant_links : list CarsDirectory.VariantPage :=
  flatten (pool_map parse_variants generation_links).
Definition cars : list dict := pool_map parse_car variant_links.

(** [parse_cars]: [None] as soon as a stage comes back empty. *)
Definition parse_cars : option (list dict) :=
  if bool_decide (length brand_links < 1) then None else
  if bool_decide (length model_links < 1) then None else
  if bool_decide (length generation_links < 1) then None else
  if bool_decide (length variant_links < 1) then None else
  if bool_decide (length cars < 1) then None else
  Some cars.

End Crawl.

End CarsDirectoryCrawl.

(** ** More sites and files for the examples *)

(** An auto-data site with one brand whose page shows no model. *)
Definition no_models_autodata_site : Autodata.site :=
  {| Autodata.parse_brands := fun _ => ["https://www.auto-data.net/en/audi-brand-41"];
     Autodata.parse_models := fun _ => [];
     Autodata.parse_generations := fun _ => [];
     Autodata.parse_variants := fun _ => [];
     Autodata.details_table := fun _ => None |}.

(** A hundred records, and a world whose pickle file holds them. *)
Definition hundred_records : list dict := replicate 100 [("Brand", "Audi")].

Definition hundred_records_cached : world blob :=
  World (Some (Pickled (PyList hundred_records))) None true true [].


(** Ten thousand records, and a world whose pickle file holds them. *)
Definition ten_thousand_records : list dict :=
  replicate (Z.to_nat 10000) [("Brand", "Audi")].

Definition ten_thousand_records_cached : world blob :=
  World (Some (Pickled (PyList ten_thousand_records))) None true true [].

(** A thecarspec site whose front page shows no brand. *)
Definition no_brands_site : TheCarSpec2.site :=
  {| TheCarSpec2.get_brands := [];
     TheCarSpec2.get_models := fun _ => [];
     TheCarSpec2.get_variants := fun _ => [];
     TheCarSpec2.detail_page := fun _ => None |}.

(** A cars-directory site with one brand, one model, one generation and
    one variant, whose details table has a row labelled [Brand]. *)
Definition one_car_directory : CarsDirectoryCrawl.site :=
  {| CarsDirectoryCrawl.brand_cards := fun _ =>
       [("Audi", "https://www.cars-directory.net/car-specs/audi/")];
     CarsDirectoryCrawl.model_cards := fun _ =>
       [("A4", "https://www.cars-directory.net/car-specs/audi/a4/")];
     CarsDirectoryCrawl.generation_cards := fun _ =>
       ["https://www.cars-directory.net/car-specs/audi/a4/2015/"];
     CarsDirectoryCrawl.variant_anchors := fun _ =>
       ["https://www.cars-directory.net/car-specs/audi/a4/2015/2_0/"];
     CarsDirectoryCrawl.details_table := fun _ =>
       Some (Soup.Tag "table" [("class", "table")]
               [Soup.Element
                  (Soup.Tag "tr" []
                     [Soup.Element (Soup.Tag "th" [] [Soup.NavigableString "Brand"]);
                      Soup.Element (Soup.Tag "td" [] [Soup.NavigableString "AUDI AG"])])]) |}.

(** A thecarspec site with one brand, one model and one variant, whose
    page gives a record. *)
Definition one_record_site : TheCarSpec.site :=
  {| TheCarSpec.parse_brands := fun _ => ["https://www.thecarspec.net/model/abarth"];
     TheCarSpec.parse_models := fun _ => ["https://www.thecarspec.net/cars/abarth-124"];
     TheCarSpec.parse_variants := fun _ => ["https://www.thecarspec.net/car-detail/124-gt"];
     TheCarSpec.parse_car := fun link => Some [("URL", link); ("Brand", "Abarth")] |}.

(** * Properties *)

(** ** Properties of [strip] and [replace] *)

Section StrFacts.
Import Str.

Lemma newline_isspace : isspace newline = true.
Proof. reflexivity. Qed.

Lemma not_space_not_newline c : isspace c = false -> Ascii.eqb c newline = false.
Proof.
  intros H. destruct (Ascii.eqb c newline) eqn:E; [|done].
  apply Ascii.eqb_eq in E. subst c. discriminate H.
Qed.

Lemma lstrip_lclean s : lclean (lstrip s).
Proof.
  unfold lclean. induction s as [|c r IH]; simpl; [done|].
  destruct (isspace c) eqn:E; [done|]. simpl. by rewrite E.
Qed.

Lemma rstrip_rclean s : rclean (rstrip s).
Proof.
  unfold rclean. induction s as [|c r IH]; simpl; [done|].
  destruct (rstrip r) as [|d r'] eqn:E.
  - destruct (isspace c) eqn:Ec; simpl; [done|]. by rewrite Ec.
  - simpl in *. by rewrite IH.
Qed.

Lemma rclean_tail c r : rclean (String c r) -> rclean r.
Proof.
  unfold rclean. simpl. destruct (rstrip r) as [|d r'] eqn:E.
  - destruct (isspace c); [done|]. by intros [= <-].
  - by intros [= <-].
Qed.

Lemma rclean_lstrip s : rclean s -> rclean (lstrip s).
Proof.
  induction s as [|c r IH]; simpl; [done|].
  intros H. destruct (isspace c); [|done].
  apply IH. by apply rclean_tail in H.
Qed.

Lemma strip_lclean s : lclean (strip s).
Proof. apply lstrip_lclean. Qed.

Lemma strip_rclean s : rclean (strip s).
Proof. apply rclean_lstrip, rstrip_rclean. Qed.

Lemma lclean_head c r : lclean (String c r) -> isspace c = false.
Proof.
  unfold lclean. simpl. destruct (isspace c) eqn:E; [|done].
  intros H. pose proof (lstrip_lclean r) as L. unfold lclean in L.
  assert (String.length (lstrip r) <= String.length r)%nat as Hlen.
  { clear. induction r as [|d r IH]; simpl; [lia|].
    destruct (isspace d); simpl; lia. }
  rewrite H in Hlen. simpl in Hlen. lia.
Qed.

Lemma rclean_single c : rclean (String c "") -> isspace c = false.
Proof. unfold rclean. simpl. by destruct (isspace c). Qed.

(** Removing the newlines of a right-clean, non-empty string leaves a
    non-empty string: its last character is not white space. *)
Lemma replace_newline_nonempty s :
  rclean s -> s <> "" -> replace newline "" s <> "".
Proof.
  induction s as [|c r IH]; [done|]. intros Hc _.
  destruct r as [|d r].
  - apply rclean_single, not_space_not_newline in Hc.
    simpl. by rewrite Hc.
  - specialize (IH (rclean_tail _ _ Hc) ltac:(done)).
    change (replace newline "" (String c (String d r)))
      with (if Ascii.eqb c newline then "" ++ replace newline "" (String d r)
            else String c (replace newline "" (String d r))).
    by destruct (Ascii.eqb c newline).
Qed.

Lemma replace_newline_lclean s : lclean s -> lclean (replace newline "" s).
Proof.
  destruct s as [|c r]; [done|]. intros H.
  pose proof (lclean_head _ _ H) as Hc.
  unfold lclean. simpl. rewrite (not_space_not_newline _ Hc). simpl.
  by rewrite Hc.
Qed.

Lemma replace_newline_rclean s : rclean s -> rclean (replace newline "" s).
Proof.
  induction s as [|c r IH]; [done|]. intros Hc.
  pose proof (rclean_tail _ _ Hc) as Hr. specialize (IH Hr).
  simpl. destruct (Ascii.eqb c newline) eqn:E; [exact IH|].
  unfold rclean in *. simpl. rewrite IH.
  destruct (replace newline "" r) as [|d r'] eqn:Er; [|done].
  destruct r as [|d r].
  - by rewrite (rclean_single _ Hc).
  - exfalso. by apply (replace_newline_nonempty (String d r)).
Qed.

Lemma replace_no_old old s : contains old (replace old "" s) = false.
Proof.
  induction s as [|c r IH]; simpl; [done|].
  destruct (Ascii.eqb c old) eqn:E; simpl; [done|]. by rewrite E.
Qed.

Lemma strip_fixed s : lclean s -> rclean s -> strip s = s.
Proof. unfold strip, lclean, rclean. by intros H ->. Qed.

End StrFacts.

(** ** [direct_text] *)

Section DirectText.
Import Soup.

Lemma truthy_false s : Str.truthy s = false <-> s = "".
Proof. destruct s; simpl; split; intros E; by try discriminate E. Qed.

Lemma direct_strings_of_strings l :
  direct_strings (NavigableString <$> l) = l.
Proof. induction l as [|s l IH]; csimpl; congruence. Qed.

Lemma first_tag_text_head cs :
  first_tag_text cs =
    match head (omap (fun n => match n with
                               | Element c => Some c
                               | NavigableString _ => None
                               end) cs) with
    | Some c => own_text c
    | None => ""
    end.
Proof. induction cs as [|[s|c] cs IH]; simpl; auto. Qed.

Lemma first_tag_text_of_strings l : first_tag_text (NavigableString <$> l) = "".
Proof. induction l as [|s l IH]; csimpl; auto. Qed.

Lemma own_text_strings_only t : own_text (strings_only t) = own_text t.
Proof. unfold own_text, strings_only. simpl. by rewrite direct_strings_of_strings. Qed.

Lemma own_text_clean t : clean (own_text t).
Proof.
  unfold own_text. set (s := Str.join _). split.
  - apply replace_no_old.
  - apply strip_fixed.
    + apply replace_newline_lclean, strip_lclean.
    + apply replace_newline_rclean, strip_rclean.
Qed.

Lemma empty_clean : clean "".
Proof. by split. Qed.

Lemma first_tag_text_clean cs : clean (first_tag_text cs).
Proof.
  induction cs as [|[s|c] cs IH]; simpl; auto using empty_clean, own_text_clean.
Qed.

Lemma direct_strings_owned cs :
  direct_strings cs
  = omap (fun n => match n with NavigableString s => Some s | Element _ => None end) cs.
Proof. induction cs as [|[s|c] cs IH]; csimpl; congruence. Qed.

Lemma own_text_owned t :
  own_text t = Str.replace Str.newline "" (Str.strip (owned_text t)).
Proof. unfold own_text, owned_text, owned_strings, Str.join. by rewrite direct_strings_owned. Qed.

(** C4: [direct_text] gives the text that the tag owns directly, that is
    the strings among its children put together, nested tags left out,
    without the white space around it and without line feeds.  When that
    text is empty it gives, in the same way, the text that the first
    child element owns, and the empty string when there is no child
    element.  So a tag that owns a text gives the same result whatever
    its nested tags are, and a tag whose only content is a child element
    gives the text that the child owns. *)
Theorem direct_text_own_or_first_child (t : tag) :
  let shown := fun s : string => Str.replace Str.newline "" (Str.strip s) in
  direct_text t =
    (if decide (shown (owned_text t) = "") then
       match first_child_element t with
       | Some child => shown (owned_text child)
       | None => ""
       end
     else shown (owned_text t))
  /\ (forall t' : tag,
        owned_strings t' = owned_strings t ->
        shown (owned_text t) <> "" ->
        direct_text t' = direct_text t)
  /\ (forall child : tag,
        direct_text (Tag (name t) (attrs t) [Element child]) = shown (owned_text child)).
Proof.
  intros shown.
  assert (Hown : forall u : tag, own_text u = shown (owned_text u))
    by apply own_text_owned.
  assert (Hdirect : forall u : tag,
            direct_text u =
              (if decide (shown (owned_text u) = "") then
                 match first_child_element u with
                 | Some child => shown (owned_text child)
                 | None => ""
                 end
               else shown (owned_text u))).
  { intros u. unfold direct_text, first_child_element. rewrite Hown.
    destruct (Str.truthy (shown (owned_text u))) eqn:E.
    - rewrite decide_False; [done|]. intros Hs. rewrite Hs in E. discriminate.
    - apply truthy_false in E. rewrite decide_True by done.
      rewrite first_tag_text_head.
      destruct (head _) as [child|]; [apply Hown|done]. }
  split; [apply Hdirect|]. split.
  - intros t' Hsame Htext. rewrite !Hdirect.
    assert (Heq : owned_text t' = owned_text t)
      by (unfold owned_text; by rewrite Hsame).
    rewrite Heq. by rewrite !decide_False.
  - intros child. rewrite Hdirect. rewrite decide_True by done. done.
Qed.

(** The cell [<td>4.5 m<span>14.76 ft</span></td>] gives [4.5 m], and so
    does the cell with another nested tag in the place of the [span]. *)
Lemma direct_text_own_or_first_child_witness :
  let cell :=
    Tag "td" [] [NavigableString "4.5 m";
                 Element (Tag "span" [] [NavigableString "14.76 ft"])] in
  let other :=
    Tag "td" [] [NavigableString "4.5 m";
                 Element (Tag "b" [] [NavigableString "metres"])] in
  direct_text cell = "4.5 m"
  /\ direct_text other = direct_text cell
  /\ direct_text (Tag "td" [] [Element (Tag "span" [] [NavigableString " 14.76 ft "])])
     = "14.76 ft".
Proof.
  intros cell other. split; [|split].
  - exact (proj1 (direct_text_own_or_first_child cell)).
  - apply (proj1 (proj2 (direct_text_own_or_first_child cell)) other).
    + reflexivity.
    + vm_compute. discriminate.
  - exact (proj2 (proj2 (direct_text_own_or_first_child cell))
             (Tag "span" [] [NavigableString " 14.76 ft "])).
Defined.

(** C10: [direct_text] returns a string for every tag, and also for
    [None] in the variant that tests for it; the string holds no newline
    and has no white space at either end. *)
Theorem direct_text_total_and_clean :
  (forall t : tag,
     Str.contains Str.newline (direct_text t) = false
     /\ Str.strip (direct_text t) = direct_text t)
  /\ (forall t : option tag,
        Str.contains Str.newline (direct_text_or_none t) = false
        /\ Str.strip (direct_text_or_none t) = direct_text_or_none t).
Proof.
  assert (forall t, clean (direct_text t)) as Hclean.
  { intros t. unfold direct_text.
    destruct (Str.truthy (own_text t));
      auto using own_text_clean, first_tag_text_clean. }
  split; [exact Hclean|].
  intros [t|]; [apply Hclean|apply empty_clean].
Qed.

End DirectText.

(** ** Dictionaries *)

Section DictFacts.
Import Dict.

Lemma mem_true k d : mem k d = true <-> is_Some (get d k).
Proof. unfold mem. by rewrite bool_decide_eq_true. Qed.

Lemma mem_false k d : mem k d = false <-> get d k = None.
Proof. unfold mem. by rewrite bool_decide_eq_false, eq_None_not_Some. Qed.

Lemma get_set_eq d k v : get (set d k v) k = Some v.
Proof.
  induction d as [|[k' v'] d IH]; simpl.
  - by rewrite decide_True.
  - destruct (decide (k' = k)) as [->|Hne]; simpl.
    + by rewrite decide_True.
    + by rewrite decide_False.
Qed.

Lemma get_set_ne d k v k' : k <> k' -> get (set d k v) k' = get d k'.
Proof.
  intros Hne. induction d as [|[k0 v0] d IH]; simpl.
  - by rewrite decide_False.
  - destruct (decide (k0 = k)) as [->|Hk]; simpl.
    + by rewrite !decide_False.
    + destruct (decide (k0 = k')); [done|apply IH].
Qed.

Lemma get_app (d1 d2 : dict) k :
  get (d1 ++ d2)%list k = match get d1 k with Some v => Some v | None => get d2 k end.
Proof.
  induction d1 as [|[k' v'] d1 IH]; simpl; [done|].
  by destruct (decide (k' = k)).
Qed.

Lemma set_fresh (d : dict) k v : get d k = None -> set d k v = (d ++ [(k, v)])%list.
Proof.
  induction d as [|[k' v'] d IH]; simpl; [done|].
  destruct (decide (k' = k)); [done|]. intros Hd. by rewrite IH.
Qed.

Lemma setdefault_present d k v : is_Some (get d k) -> setdefault d k v = d.
Proof. intros Hd. unfold setdefault. apply mem_true in Hd. by rewrite Hd. Qed.

Lemma setdefault_fresh (d : dict) k v :
  get d k = None -> setdefault d k v = (d ++ [(k, v)])%list.
Proof.
  intros Hd. unfold setdefault. rewrite (proj2 (mem_false k d) Hd).
  by apply set_fresh.
Qed.

Lemma get_setdefault (d : dict) k v k' :
  get (setdefault d k v) k' = get (d ++ [(k, v)])%list k'.
Proof.
  destruct (get d k) as [x|] eqn:Hd.
  - rewrite setdefault_present by eauto. rewrite get_app.
    destruct (get d k') as [y|] eqn:Hk'; [done|]. simpl.
    destruct (decide (k = k')) as [->|]; [congruence|done].
  - by rewrite setdefault_fresh.
Qed.

(** Writing pairs one after the other with [setdefault] gives, for every
    key, the value of the first pair that carries it. *)
Lemma get_foldl_setdefault (writes : list (string * string)) (init : dict) k :
  get (foldl (fun d kv => setdefault d kv.1 kv.2) init writes) k
  = get (init ++ writes)%list k.
Proof.
  revert init. induction writes as [|[k0 v0] writes IH]; intros init; simpl.
  - by rewrite app_nil_r.
  - rewrite IH. rewrite !get_app, get_setdefault, get_app. simpl.
    destruct (get init k); [done|]. by destruct (decide (k0 = k)).
Qed.

Lemma setdefault_keeps d k v k' x :
  get d k' = Some x -> get (setdefault d k v) k' = Some x.
Proof. intros Hd. by rewrite get_setdefault, get_app, Hd. Qed.

End DictFacts.

(** ** [parse_car]: the first value written for a field stays *)

Section FirstWrite.
Import Soup.

Lemma autodata_parse_row_write attributes row :
  Autodata.parse_row attributes row =
    match autodata_row_write row with
    | Some (key, value) => Dict.setdefault attributes key value
    | None => attributes
    end.
Proof.
  unfold Autodata.parse_row, autodata_row_write.
  destruct (has_attr row "class"); [done|].
  destruct (find row "th"); [|done]. by destruct (find row "td").
Qed.

Lemma carsdirectory_parse_row_write attributes row :
  CarsDirectory.parse_row attributes row =
    match carsdirectory_row_write row with
    | Some (key, value) => Dict.setdefault attributes key value
    | None => attributes
    end.
Proof.
  unfold CarsDirectory.parse_row, carsdirectory_row_write.
  destruct (find row "th"); [|done]. by destruct (find row "td").
Qed.

Lemma foldl_rows_writes (step : dict -> tag -> dict) (write : tag -> option (string * string)) :
  (forall attributes row,
     step attributes row =
       match write row with
       | Some (key, value) => Dict.setdefault attributes key value
       | None => attributes
       end) ->
  forall rows init,
    foldl step init rows
    = foldl (fun d kv => Dict.setdefault d kv.1 kv.2) init (omap write rows).
Proof.
  intros Hstep rows. induction rows as [|row rows IH]; intros init; simpl; [done|].
  rewrite IH, Hstep. by destruct (write row) as [[key value]|].
Qed.

(** C3, as amended: the record that [parse_car] of [autodata_scraper.py]
    and of [carsdirectory_scraper.py] builds keeps, for every field name,
    the first value written for it (for cars-directory the two fields set
    before the rows count as written first), and a row never changes the
    value of a field that the record already has. *)
Theorem parse_car_first_write_wins :
  (forall table : tag,
     first_write_wins (omap autodata_row_write (find_all table "tr"))
                      (Autodata.parse_car (Some table)))
  /\ (forall (variant_page : CarsDirectory.VariantPage) (table : tag),
        first_write_wins
          ([("Brand", CarsDirectory.brand variant_page);
            ("BrandModel", CarsDirectory.model variant_page)]
           ++ omap carsdirectory_row_write (find_all table "tr"))%list
          (CarsDirectory.parse_car variant_page (Some table)))
  /\ (forall (attributes : dict) (row : tag) (k v : string),
        Dict.get attributes k = Some v ->
        Dict.get (Autodata.parse_row attributes row) k = Some v
        /\ Dict.get (CarsDirectory.parse_row attributes row) k = Some v).
Proof.
  split; [|split].
  - intros table k. unfold Autodata.parse_car.
    rewrite (foldl_rows_writes _ _ autodata_parse_row_write).
    by rewrite get_foldl_setdefault.
  - intros variant_page table k. unfold CarsDirectory.parse_car.
    rewrite (foldl_rows_writes _ _ carsdirectory_parse_row_write).
    by rewrite get_foldl_setdefault.
  - intros attributes row k v Hk.
    rewrite autodata_parse_row_write, carsdirectory_parse_row_write.
    split.
    + destruct (autodata_row_write row) as [[key value]|];
        auto using setdefault_keeps.
    + destruct (carsdirectory_row_write row) as [[key value]|];
        auto using setdefault_keeps.
Qed.

(** A row that repeats the field [Length] with another value, after a
    record that has it already. *)
Lemma parse_car_first_write_wins_witness :
  Dict.get (Autodata.parse_row [("Length", "4 m")]
              (Tag "tr" [] [Element (Tag "th" [] [NavigableString "Length"]);
                            Element (Tag "td" [] [NavigableString "5 m"])]))
           "Length" = Some "4 m".
Proof.
  apply (proj2 (proj2 parse_car_first_write_wins)
           [("Length", "4 m")]
           (Tag "tr" [] [Element (Tag "th" [] [NavigableString "Length"]);
                         Element (Tag "td" [] [NavigableString "5 m"])])
           "Length" "4 m").
  reflexivity.
Defined.

(** C3 fails for [get_car_data] of [thecarSpec_scraper2.py]: on a page
    whose rows carry [Color] twice, first with [red] and then with
    [blue], the record has [blue]. *)
Lemma get_car_data_last_write_wins :
  let rows :=
    [ {| TheCarSpec2.row_th := Some "Brand"; TheCarSpec2.row_td := Some "Abarth" |};
      {| TheCarSpec2.row_th := Some "Model"; TheCarSpec2.row_td := Some "124" |};
      {| TheCarSpec2.row_th := Some "Color"; TheCarSpec2.row_td := Some "red" |};
      {| TheCarSpec2.row_th := Some "Doors"; TheCarSpec2.row_td := Some "2" |};
      {| TheCarSpec2.row_th := Some "Seats"; TheCarSpec2.row_td := Some "2" |};
      {| TheCarSpec2.row_th := Some "Color"; TheCarSpec2.row_td := Some "blue" |} ] in
  let writes :=
    [("URL", "u"); ("Version", "GT"); ("Brand", "Abarth"); ("Model", "124");
     ("Color", "red"); ("Doors", "2"); ("Seats", "2"); ("Color", "blue")] in
  exists data,
    TheCarSpec2.get_car_data "u"
      (Some {| TheCarSpec2.page_version := Some "GT"; TheCarSpec2.page_rows := rows |})
    = TheCarSpec2.Extracted data
    /\ Dict.get data "Color" = Some "blue"
    /\ Dict.get writes "Color" = Some "red"
    /\ ~ first_write_wins writes data.
Proof.
  eexists. split; [vm_compute; reflexivity|].
  split; [reflexivity|]. split; [reflexivity|].
  intros Hfirst. specialize (Hfirst "Color"). vm_compute in Hfirst. discriminate Hfirst.
Qed.

End FirstWrite.

(** ** The column order of the table *)

Section Columns.

Lemma elem_of_concat_keys (cars : list dict) k :
  k ∈ concat (Dict.keys <$> cars) <-> exists car, car ∈ cars /\ k ∈ Dict.keys car.
Proof.
  induction cars as [|car cars IH]; csimpl.
  - split; [by intros ?%elem_of_nil|]. by intros (car & ?%elem_of_nil & _).
  - rewrite elem_of_app, IH. split.
    + intros [Hk|(c & Hc & Hk)]; [exists car|exists c]; split; auto; constructor; done.
    + intros (c & [->|Hc]%elem_of_cons & Hk); [by left|right; eauto].
Qed.

Lemma elem_of_all_keys_from (cars : list dict) (keys : gset string) k :
  k ∈ foldl (fun keys car => keys ∪ list_to_set (Dict.keys car)) keys cars
  <-> k ∈ keys \/ exists car, car ∈ cars /\ k ∈ Dict.keys car.
Proof.
  revert keys. induction cars as [|car cars IH]; intros keys; simpl.
  - split; [by left|]. intros [?|(car & ?%elem_of_nil & _)]; done.
  - rewrite IH, elem_of_union, elem_of_list_to_set. split.
    + intros [[Hk|Hk]|(c & Hc & Hk)]; [by left|right; exists car|right; exists c];
        split; auto; constructor; done.
    + intros [Hk|(c & [->|Hc]%elem_of_cons & Hk)]; [by left; left|by left; right|].
      right. eauto.
Qed.

Lemma elem_of_all_keys (cars : list dict) k :
  k ∈ all_keys cars <-> exists car, car ∈ cars /\ k ∈ Dict.keys car.
Proof.
  unfold all_keys. rewrite elem_of_all_keys_from.
  split; [intros [?%elem_of_empty|?]; done|by right].
Qed.

Lemma elem_of_union_keys (cars : list dict) k :
  k ∈ TheCarSpec2.union_keys cars <-> exists car, car ∈ cars /\ k ∈ Dict.keys car.
Proof.
  unfold TheCarSpec2.union_keys. rewrite elem_of_union_list. split.
  - intros (X & (car & -> & Hcar)%list_elem_of_fmap & Hk).
    exists car. split; [done|]. by apply elem_of_list_to_set in Hk.
  - intros (car & Hcar & Hk). exists (list_to_set (Dict.keys car)). split.
    + apply list_elem_of_fmap. eauto.
    + by apply elem_of_list_to_set.
Qed.

Lemma elem_of_first_seen_from seen ks k :
  k ∈ first_seen_from seen ks <-> k ∈ ks /\ k ∉ seen.
Proof.
  revert seen. induction ks as [|k0 ks IH]; intros seen; simpl.
  - split; [by intros ?%elem_of_nil|]. by intros [?%elem_of_nil _].
  - destruct (decide (k0 ∈ seen)) as [Hin|Hout].
    + rewrite IH, elem_of_cons. split; [intros [??]; auto|].
      intros [[->|?] ?]; done.
    + rewrite !elem_of_cons, IH, not_elem_of_cons. split.
      * intros [->|(? & ? & ?)]; auto.
      * intros [[->|Hk] Hs]; [by left|].
        destruct (decide (k = k0)) as [->|]; [by left|right; auto].
Qed.

Lemma NoDup_first_seen_from seen ks : NoDup (first_seen_from seen ks).
Proof.
  revert seen. induction ks as [|k0 ks IH]; intros seen; simpl; [constructor|].
  destruct (decide (k0 ∈ seen)); [apply IH|].
  constructor; [|apply IH].
  rewrite elem_of_first_seen_from, not_elem_of_cons. intros [_ [? _]]. done.
Qed.

Lemma elem_of_first_seen (cars : list dict) k :
  k ∈ first_seen cars <-> exists car, car ∈ cars /\ k ∈ Dict.keys car.
Proof.
  unfold first_seen. rewrite elem_of_first_seen_from, elem_of_concat_keys.
  split; [by intros [? _]|]. intros ?. split; [done|]. by intros ?%elem_of_nil.
Qed.

(** Iterating over the set of all keys visits the first-seen keys, each
    once, in some order. *)
Lemma elements_all_keys (cars : list dict) :
  elements (all_keys cars) ≡ₚ first_seen cars.
Proof.
  apply NoDup_Permutation.
  - apply NoDup_elements.
  - apply NoDup_first_seen_from.
  - intros k. by rewrite elem_of_elements, elem_of_all_keys, elem_of_first_seen.
Qed.

Lemma elements_union_keys (cars : list dict) :
  elements (TheCarSpec2.union_keys cars) ≡ₚ first_seen cars.
Proof.
  apply NoDup_Permutation.
  - apply NoDup_elements.
  - apply NoDup_first_seen_from.
  - intros k. by rewrite elem_of_elements, elem_of_union_keys, elem_of_first_seen.
Qed.

(** C5, as amended: the columns of [write_to_csv] of [autodata_scraper.py]
    are the whole priority list followed by the other fields of the
    records, each once, in the order in which the set of keys is
    iterated; the columns of [thecarSpec_scraper2.py] are the priority
    list filtered to the fields that are present, followed by the other
    fields, each once, in ascending order. *)
Theorem column_order (cars : list dict) :
  (exists rest,
     Autodata.fieldnames cars = (Autodata.priority_keys ++ rest)%list
     /\ rest ≡ₚ filter (fun k => k ∉ Autodata.priority_keys) (first_seen cars))
  /\ (exists rest,
        TheCarSpec2.fieldnames cars
        = (filter (fun k => k ∈ first_seen cars) TheCarSpec2.priority ++ rest)%list
        /\ rest ≡ₚ filter (fun k => k ∉ TheCarSpec2.priority) (first_seen cars)
        /\ StronglySorted String.le rest).
Proof.
  split.
  - eexists. split; [reflexivity|]. by rewrite elements_all_keys.
  - eexists. split; [|split].
    + unfold TheCarSpec2.fieldnames. f_equal. apply list_filter_iff.
      intros k. by rewrite elem_of_union_keys, elem_of_first_seen.
    + by rewrite merge_sort_Permutation, elements_union_keys.
    + apply (StronglySorted_merge_sort _).
Qed.

(** C5 fails as stated.  For the single record with the single field
    [Zeta], [autodata_scraper.py] writes the thirteen priority columns
    before [Zeta], where the stated order has [Zeta] alone.  For a record
    with [b] followed by a record with [a], [thecarSpec_scraper2.py]
    writes [a] before [b], where the stated order has [b] first. *)
Lemma column_order_not_as_stated :
  Autodata.fieldnames [[("Zeta", "1")]]
    = (Autodata.priority_keys ++ ["Zeta"])%list
  /\ spec_columns Autodata.priority_keys [[("Zeta", "1")]] = ["Zeta"]
  /\ Autodata.fieldnames [[("Zeta", "1")]]
     <> spec_columns Autodata.priority_keys [[("Zeta", "1")]]
  /\ TheCarSpec2.fieldnames [[("b", "1")]; [("a", "2")]] = ["a"; "b"]
  /\ spec_columns TheCarSpec2.priority [[("b", "1")]; [("a", "2")]] = ["b"; "a"]
  /\ TheCarSpec2.fieldnames [[("b", "1")]; [("a", "2")]]
     <> spec_columns TheCarSpec2.priority [[("b", "1")]; [("a", "2")]].
Proof.
  repeat split; try (vm_compute; reflexivity); vm_compute; discriminate.
Qed.

(** The three records of scenario B of the specification: the columns of
    [thecarSpec_scraper2.py] have [Color] before [Power]. *)
Lemma scenario_b_columns :
  let records : list dict :=
    [ [("Brand", "X"); ("Model", "Y")];
      [("Brand", "X"); ("Model", "Y"); ("Power", "150")];
      [("Model", "Z"); ("Color", "red")] ] in
  TheCarSpec2.fieldnames records = ["Brand"; "Model"; "Color"; "Power"]
  /\ spec_columns TheCarSpec2.priority records = ["Brand"; "Model"; "Power"; "Color"]
  /\ length (Autodata.fieldnames records) = 15.
Proof. repeat split; vm_compute; reflexivity. Qed.

End Columns.

(** ** What happens to a record after it was extracted *)

Section Mutation.

Lemma get_blank_fields (names : list string) k :
  Dict.get ((fun key => (key, "")) <$> names) k
  = if decide (k ∈ names) then Some "" else None.
Proof.
  induction names as [|n names IH]; csimpl; [done|].
  rewrite IH. destruct (decide (n = k)) as [->|Hne].
  - rewrite decide_True; [done|]. by left.
  - destruct (decide (k ∈ names)) as [Hin|Hout].
    + rewrite decide_True; [done|]. by right.
    + rewrite decide_False; [done|]. intros [->|?]%elem_of_cons; done.
Qed.

Lemma pad_as_writes (names : list string) (car : dict) :
  Autodata.pad names car
  = foldl (fun d kv => Dict.setdefault d kv.1 kv.2) car ((fun key => (key, "")) <$> names).
Proof. unfold Autodata.pad. by rewrite foldl_fmap. Qed.

Lemma get_pad (names : list string) (car : dict) k :
  Dict.get (Autodata.pad names car) k =
    match Dict.get car k with
    | Some v => Some v
    | None => if decide (k ∈ names) then Some "" else None
    end.
Proof. by rewrite pad_as_writes, get_foldl_setdefault, get_app, get_blank_fields. Qed.

Lemma pad_prefix (names : list string) (car : dict) :
  car `prefix_of` Autodata.pad names car.
Proof.
  revert car. induction names as [|n names IH]; intros car; simpl; [done|].
  etrans; [|apply IH]. unfold Dict.setdefault.
  destruct (Dict.mem n car) eqn:E; [done|].
  apply mem_false in E. rewrite (set_fresh _ _ _ E). by apply prefix_app_r.
Qed.

Lemma backfill_frame (car car' : dict) k :
  TheCarSpec2.backfill car = Some car' ->
  k <> "Brand" -> k <> "Model" -> Dict.get car' k = Dict.get car k.
Proof.
  unfold TheCarSpec2.backfill. intros Hb HB HM.
  destruct (negb _ || negb _); [|by injection Hb as <-].
  destruct (Dict.get car "URL") as [url|]; [|done].
  destruct (bool_decide _); injection Hb as <-; [|done].
  rewrite !get_set_ne; done.
Qed.

(** C6, as amended: [write_to_csv] of [autodata_scraper.py] pads every
    record: the record it leaves starts with the fields of the record it
    was given, in their order and with their values, and adds each column
    that was missing with the empty string.  The loop of
    [thecarSpec_scraper2.py] that adds [Brand] and [Model] from the URL
    changes no other field, and leaves a record that has both as it
    is. *)
Theorem records_padded_or_backfilled_only :
  (forall (wire : Type) (cars : list dict) (w : world wire),
     Forall2
       (fun car car' : dict =>
          car `prefix_of` car'
          /\ forall k,
               Dict.get car' k =
                 match Dict.get car k with
                 | Some v => Some v
                 | None => if decide (k ∈ Autodata.fieldnames cars) then Some "" else None
                 end)
       cars (Autodata.write_to_csv cars w).1)
  /\ (forall (car car' : dict) (k : string),
        TheCarSpec2.backfill car = Some car' ->
        k <> "Brand" -> k <> "Model" -> Dict.get car' k = Dict.get car k)
  /\ (forall car : dict,
        Dict.mem "Brand" car = true -> Dict.mem "Model" car = true ->
        TheCarSpec2.backfill car = Some car).
Proof.
  split; [|split].
  - intros wire cars w. unfold Autodata.write_to_csv. simpl.
    generalize (Autodata.fieldnames cars) as names. intros names.
    induction cars as [|car cars IH]; csimpl; constructor; [|done].
    split; [apply pad_prefix|]. intros k. apply get_pad.
  - apply backfill_frame.
  - intros car HB HM. unfold TheCarSpec2.backfill. by rewrite HB, HM.
Qed.

(** The address of a record with a [Model] and no [Brand] stays as it is
    when the two fields are added. *)
Lemma records_padded_or_backfilled_only_witness :
  Dict.get [("URL", "https://www.thecarspec.net/car-detail/abarth/124/gt/1");
            ("Model", "124"); ("Brand", "Abarth")] "URL"
  = Dict.get [("URL", "https://www.thecarspec.net/car-detail/abarth/124/gt/1");
              ("Model", "124")] "URL"
  /\ TheCarSpec2.backfill [("Brand", "Abarth"); ("Model", "124")]
     = Some [("Brand", "Abarth"); ("Model", "124")].
Proof.
  split.
  - refine (proj1 (proj2 records_padded_or_backfilled_only) _ _ "URL" _ _ _).
    + vm_compute. reflexivity.
    + discriminate.
    + discriminate.
  - apply (proj2 (proj2 records_padded_or_backfilled_only)); reflexivity.
Defined.

(** C6 fails as stated: [write_to_csv] of [autodata_scraper.py], given
    the single record with the single field [Brand], leaves a record with
    thirteen fields; it has [Model], which the record did not have. *)
Lemma write_to_csv_changes_records :
  let car : dict := [("Brand", "X")] in
  let w : world blob := no_files in
  (Autodata.write_to_csv [car] w).1 <> [car]
  /\ Dict.get car "Model" = None
  /\ (exists car', (Autodata.write_to_csv [car] w).1 = [car']
                   /\ Dict.get car' "Model" = Some ""
                   /\ length car' = 13).
Proof.
  split; [vm_compute; discriminate|]. split; [reflexivity|].
  eexists. split; [vm_compute; reflexivity|]. split; reflexivity.
Qed.

End Mutation.

(** ** The retrying session *)

Section Retries.
Import Http.

Lemma urlopen_retry total connect read forcelist server i status has_retry_after text :
  server i = Response status has_retry_after text ->
  is_retry (S total) forcelist status has_retry_after = true ->
  urlopen (S total) connect read forcelist server i
  = urlopen total connect read forcelist server (S i).
Proof. intros Hs Hr. simpl. by rewrite Hs, Hr. Qed.

Lemma urlopen_return total connect read forcelist server i status has_retry_after text :
  server i = Response status has_retry_after text ->
  is_retry total forcelist status has_retry_after = false ->
  urlopen total connect read forcelist server i = (Responded status text, S i).
Proof. intros Hs Hr. destruct total; simpl; by rewrite Hs, Hr. Qed.

Lemma is_retry_forced total forcelist status has_retry_after :
  status ∈ forcelist -> is_retry total forcelist status has_retry_after = true.
Proof. intros Hin. unfold is_retry. by rewrite bool_decide_eq_true_2. Qed.

Lemma is_retry_plain total forcelist status :
  status ∉ forcelist -> is_retry total forcelist status false = false.
Proof.
  intros Hout. unfold is_retry. rewrite bool_decide_eq_false_2 by done.
  by destruct (bool_decide (0 < total)).
Qed.

Lemma is_retry_other total forcelist status has_retry_after :
  status ∉ forcelist -> status ∉ RETRY_AFTER_STATUS_CODES ->
  is_retry total forcelist status has_retry_after = false.
Proof.
  intros Hout Hra. unfold is_retry.
  rewrite (bool_decide_eq_false_2 (status ∈ forcelist)) by done.
  rewrite (bool_decide_eq_false_2 (status ∈ RETRY_AFTER_STATUS_CODES)) by done.
  by rewrite andb_false_r.
Qed.

(** The scenario for a session with a budget of at least three retries
    that forces a retry on 503. *)
Lemma three_503_then_200 (r : Retry) (server : nat -> outcome) (body : string)
    (has_retry_after : bool) (budget : nat) :
  total r = S (S (S budget)) ->
  (503%Z ∈ status_forcelist r) ->
  (200%Z ∉ status_forcelist r) ->
  (forall i, i < 3 -> exists ra text, server i = Response 503 ra text) ->
  server 3 = Response 200 has_retry_after body ->
  download_page (Some r) server = (Some body, 4).
Proof.
  intros Htotal Hforce H200 Hfirst Hlast. unfold download_page. rewrite Htotal.
  destruct (Hfirst 0) as (ra0 & t0 & H0); [lia|].
  destruct (Hfirst 1) as (ra1 & t1 & H1); [lia|].
  destruct (Hfirst 2) as (ra2 & t2 & H2); [lia|].
  rewrite (urlopen_retry _ _ _ _ _ _ _ _ _ H0) by by apply is_retry_forced.
  rewrite (urlopen_retry _ _ _ _ _ _ _ _ _ H1) by by apply is_retry_forced.
  rewrite (urlopen_retry _ _ _ _ _ _ _ _ _ H2) by by apply is_retry_forced.
  rewrite (urlopen_return _ _ _ _ _ _ _ _ _ Hlast).
  - reflexivity.
  - apply is_retry_other; [done|]. unfold RETRY_AFTER_STATUS_CODES.
    rewrite !elem_of_cons, elem_of_nil. intros [?|[?|[?|?]]]; done.
Qed.

(** C2, as amended: with the session of [theCarSpec_scraper.py] and with
    the session of [thecarSpec_scraper2.py], which force a retry on 429,
    500, 502, 503 and 504, three 503 responses followed by a 200 give the
    body of the 200 after exactly four requests; a response with one of
    the five statuses is followed by another request; a response with
    another 4xx or 5xx status and no [Retry-After] header gives [None]
    after one request. *)
Theorem forced_statuses_are_retried :
  (forall (server : nat -> outcome) (body : string) (has_retry_after : bool),
     (forall i, i < 3 -> exists ra text, server i = Response 503 ra text) ->
     server 3 = Response 200 has_retry_after body ->
     download_page (Some TheCarSpec.init_session) server = (Some body, 4)
     /\ download_page (Some TheCarSpec2.session) server = (Some body, 4))
  /\ (forall (server : nat -> outcome) (status : Z) (ra : bool) (text : string),
        server 0 = Response status ra text ->
        status ∈ [429; 500; 502; 503; 504]%Z ->
        2 <= (download_page (Some TheCarSpec.init_session) server).2
        /\ 2 <= (download_page (Some TheCarSpec2.session) server).2)
  /\ (forall (server : nat -> outcome) (status : Z) (text : string),
        server 0 = Response status false text ->
        (400 <= status < 600)%Z ->
        status ∉ [429; 500; 502; 503; 504]%Z ->
        download_page (Some TheCarSpec.init_session) server = (None, 1)
        /\ download_page (Some TheCarSpec2.session) server = (None, 1)).
Proof.
  assert (forall total connect read forcelist server i,
            i < (urlopen total connect read forcelist server i).2) as Hmore.
  { intros total. induction total as [|total IH]; intros connect read forcelist server i.
    - simpl. destruct (server i); [destruct (is_retry _ _ _ _)|..]; simpl; lia.
    - simpl. destruct (server i) as [st ra t| |].
      + destruct (is_retry _ _ _ _); simpl; [|lia]. specialize (IH connect read forcelist server (S i)). lia.
      + destruct (spend connect) as [c|]; simpl; [|lia].
        specialize (IH c read forcelist server (S i)). lia.
      + destruct (spend read) as [c|]; simpl; [|lia].
        specialize (IH connect c forcelist server (S i)). lia. }
  split; [|split].
  - intros server body ra Hfirst Hlast. split.
    + apply (three_503_then_200 _ _ _ ra 2); try done; simpl.
      * rewrite !elem_of_cons. auto 10.
      * rewrite !elem_of_cons, elem_of_nil. intros [?|[?|[?|[?|[?|?]]]]]; done.
    + apply (three_503_then_200 _ _ _ ra 0); try done; simpl.
      * rewrite !elem_of_cons. auto 10.
      * rewrite !elem_of_cons, elem_of_nil. intros [?|[?|[?|[?|[?|?]]]]]; done.
  - intros server status ra text Hs Hin. unfold download_page. simpl total.
    split.
    + rewrite (urlopen_retry _ _ _ _ _ _ _ _ _ Hs) by by apply is_retry_forced.
      match goal with |- context [urlopen ?a ?b ?c ?d ?e ?f] =>
        pose proof (Hmore a b c d e f) as Hn; destruct (urlopen a b c d e f) as [[st t|] n]
      end; simpl in *; [destruct (raise_for_status st)|]; simpl; lia.
    + rewrite (urlopen_retry _ _ _ _ _ _ _ _ _ Hs) by by apply is_retry_forced.
      match goal with |- context [urlopen ?a ?b ?c ?d ?e ?f] =>
        pose proof (Hmore a b c d e f) as Hn; destruct (urlopen a b c d e f) as [[st t|] n]
      end; simpl in *; [destruct (raise_for_status st)|]; simpl; lia.
  - intros server status text Hs Hrange Hout. unfold download_page.
    rewrite !(urlopen_return _ _ _ _ _ _ _ _ _ Hs) by by apply is_retry_plain.
    unfold raise_for_status. by rewrite bool_decide_eq_true_2.
Qed.

(** Three 503 responses, the second with a [Retry-After] header, and then
    a 200. *)
Lemma forced_statuses_are_retried_witness :
  download_page (Some TheCarSpec.init_session)
    (fun i => match i with
              | 0 | 2 => Response 503 false "busy"
              | 1 => Response 503 true "busy"
              | _ => Response 200 false "<html>"
              end)
  = (Some "<html>", 4).
Proof.
  apply (proj1 forced_statuses_are_retried _ "<html>" false).
  - intros [|[|[|i]]] Hi; [eauto..|lia].
  - reflexivity.
Defined.

(** C2 fails as stated for the session of [autodata_scraper.py], which
    has no status force list: after the first 503, sent without a
    [Retry-After] header, no other request is issued and the page is
    [None]. *)
Lemma autodata_session_gives_up_on_503 :
  let server := fun i => if (i <? 3)%nat then Response 503 false "busy"
                         else Response 200 false "<html>" in
  download_page (Some Autodata.init_session) server = (None, 1)
  /\ download_page (Some Autodata.init_session) server <> (Some "<html>", 4).
Proof. split; [vm_compute; reflexivity|vm_compute; discriminate]. Qed.

End Retries.

(** ** The pickle file and the runs of [main] *)



Section Runs.
Context {wire : Type} `{Pickle wire}.

Lemma pickle_load_dump (cars : list dict) (w : world wire) :
  pickle_writable w = true ->
  pickle_load (pickle_dump cars w).2 = Some (PyList cars).
Proof.
  intros Hw. unfold pickle_load, pickle_dump. rewrite Hw. simpl. apply load_dump.
Qed.

Lemma csv_write_pickle_file names cars (w : world wire) :
  pickle_file (csv_write names cars w).2 = pickle_file w.
Proof. unfold csv_write. by destruct (csv_writable w). Qed.


(** The results of [pool_map] are those of the calls, in some order, so
    the size of what a stage gathers does not depend on the order in
    which the workers finish. *)
Lemma pool_map_perm `{Pool} {A B : Type} (fn : A -> B) (args : list A) :
  pool_map fn args ≡ₚ fn <$> args.
Proof. apply imap_unordered_perm. Qed.

Lemma pool_map_concat_length `{Pool} {A B : Type} (fn : A -> list B) (args : list A) :
  length (concat (pool_map fn args)) = length (concat (fn <$> args)).
Proof.
  assert (forall l1 l2 : list (list B), l1 ≡ₚ l2 -> length (concat l1) = length (concat l2))
    as Hperm.
  { intros l1 l2 Hl. induction Hl; simpl; rewrite ?length_app; lia. }
  apply Hperm, pool_map_perm.
Qed.

Lemma autodata_parse_cars_frame `{Pool} (web : Autodata.site) (w : world wire) :
  pickle_file (Autodata.parse_cars web w).2 = pickle_file w
  /\ csv_file (Autodata.parse_cars web w).2 = csv_file w
  /\ pickle_writable (Autodata.parse_cars web w).2 = pickle_writable w
  /\ csv_writable (Autodata.parse_cars web w).2 = csv_writable w.
Proof. unfold Autodata.parse_cars. by repeat case_bool_decide. Qed.

End Runs.

(** C9: when the pickle file can be written, what [write_pickle] saved is
    what [read_pickle] loads, for every list of records and whatever the
    files held before; and the run of [main] of [autodata_scraper.py]
    that scraped the records [cars] leaves a pickle file from which
    [read_pickle] loads [cars], as they were before [write_to_csv] padded
    them. *)
Theorem read_pickle_write_pickle :
  (forall (wire : Type) (P : Pickle wire) (R : list dict) (w : world wire),
     pickle_writable w = true ->
     (Autodata.write_pickle R w).1 = true
     /\ Autodata.read_pickle (Autodata.write_pickle R w).2 = Some (PyList R))
  /\ (forall (wire : Type) (P : Pickle wire) (pool : Pool) (web : Autodata.site)
        (w w' : world wire) (cars : list dict),
        pickle_file w = None ->
        pickle_writable w = true ->
        Autodata.parse_cars web w = (Some cars, w') ->
        (Autodata.main web w).1 = Finished
        /\ Autodata.read_pickle (Autodata.main web w).2 = Some (PyList cars)).
Proof.
  split.
  - intros wire P R w Hw. split; [|by apply pickle_load_dump].
    unfold Autodata.write_pickle, pickle_dump. by rewrite Hw.
  - intros wire P pool web w w' cars Hnone Hw Hrun.
    destruct (autodata_parse_cars_frame web w) as (_ & _ & Hw' & _).
    rewrite Hrun in Hw'. simpl in Hw'. rewrite Hw in Hw'.
    unfold Autodata.main. rewrite Hnone, Hrun. split; [done|].
    unfold Autodata.read_pickle, Autodata.write_to_csv, pickle_load. simpl.
    rewrite csv_write_pickle_file.
    by apply pickle_load_dump.
Qed.

(** The run that scrapes the site with one car, from a world without
    files. *)
Lemma read_pickle_write_pickle_witness :
  (Autodata.main one_car_site no_files).1 = Finished
  /\ Autodata.read_pickle (Autodata.main one_car_site no_files).2
     = Some (PyList [[("Brand", "Audi")]]).
Proof.
  refine (proj2 read_pickle_write_pickle blob _ _ one_car_site no_files
            (World None None true true
               [Ran Brands 1; Ran Models 1; Ran Generations 1;
                Ran Variants 1; Ran Details 1])
            [[("Brand", "Audi")]] _ _ _).
  - reflexivity.
  - reflexivity.
  - vm_compute. reflexivity.
Defined.

(** ** The cached pickle at the start of [main] *)

Section CachedPickle.
Context {wire : Type} `{Pickle wire}.

Lemma thecarspec_check_removes (w : world wire) (content : wire) :
  pickle_file w = Some content ->
  (load content = None
   \/ exists o, load content = Some o
        /\ (isinstance_list o = false
            \/ exists n, len o = Some n /\ (Z.of_nat n < TheCarSpec.min_records)%Z)) ->
  TheCarSpec.check_pickle w = unlink w.
Proof.
  intros Hfile Hbad. unfold TheCarSpec.check_pickle. rewrite Hfile.
  destruct Hbad as [->|(o & -> & [Hlist|(n & Hlen & Hshort)])]; [done|..].
  - by rewrite Hlist.
  - destruct (isinstance_list o); [|done]. simpl. rewrite Hlen.
    by rewrite bool_decide_eq_true_2.
Qed.

Lemma thecarspec2_check_removes (w : world wire) (content : wire) :
  pickle_file w = Some content ->
  (load content = None
   \/ exists o, load content = Some o
        /\ (len o = None
            \/ exists n, len o = Some n /\ (Z.of_nat n < TheCarSpec2.min_records)%Z)) ->
  TheCarSpec2.check_pickle w = unlink w.
Proof.
  intros Hfile Hbad. unfold TheCarSpec2.check_pickle. rewrite Hfile.
  destruct Hbad as [->|(o & -> & [->|(n & -> & Hshort)])]; [done..|].
  by rewrite bool_decide_eq_true_2.
Qed.


(** A run of [theCarSpec_scraper.py] without a pickle file starts with
    the brands stage. *)
Lemma thecarspec_scrape_log `{Pool} (web : TheCarSpec.site) (w : world wire) :
  pickle_file w = None ->
  exists n rest, log (TheCarSpec.main web w).2 = (log w ++ Ran Brands n :: rest)%list.
Proof.
  destruct w as [pf cf pw cw lg]. simpl. intros ->.
  unfold TheCarSpec.main, TheCarSpec.check_pickle. simpl.
  unfold TheCarSpec.parse_cars.
  repeat case_bool_decide; simpl; rewrite <- ?app_assoc; simpl; eauto.
  unfold TheCarSpec.write_to_csv, TheCarSpec.write_pickle, pickle_dump, csv_write.
  simpl. destruct pw, cw, (TheCarSpec.cars web); simpl;
    rewrite <- ?app_assoc; simpl; eauto.
Qed.

(** A run of [thecarSpec_scraper2.py] without a pickle file starts with
    the brands stage. *)
Lemma thecarspec2_scrape_log (web : TheCarSpec2.site) (w : world wire) :
  pickle_file w = None ->
  exists n rest, log (TheCarSpec2.main web w).2 = (log w ++ Ran Brands n :: rest)%list.
Proof.
  destruct w as [pf cf pw cw lg]. simpl. intros ->.
  unfold TheCarSpec2.main, TheCarSpec2.check_pickle. simpl.
  destruct (TheCarSpec2.get_brands web) as [|b bs] eqn:Hb; simpl; [eauto|].
  destruct (TheCarSpec2.collect _) as [cars|]; simpl;
    [|rewrite <- ?app_assoc; simpl; eauto].
  destruct (mapM _ cars); simpl; [|rewrite <- ?app_assoc; simpl; eauto].
  unfold TheCarSpec2.write_csv, pickle_dump, csv_write. simpl.
  destruct pw, cw; simpl; rewrite <- ?app_assoc; simpl; eauto.
Qed.

End CachedPickle.

(** C7, as amended.  [main] of [theCarSpec_scraper.py] removes a cached
    pickle that does not load, that is not a list, or that has fewer than
    100 items, and then runs as it does without a pickle file, from the
    brands stage on.  [main] of [thecarSpec_scraper2.py] does the same
    for a pickle that does not load, that has no length, or that has
    fewer than 10000 items.  [main] of [autodata_scraper.py] checks
    nothing: whatever list of records the pickle holds goes to the
    table, the pickle stays and no stage runs. *)
Theorem cached_pickle_is_checked :
  (forall (wire : Type) (P : Pickle wire) (pool : Pool) (web : TheCarSpec.site)
          (w : world wire) (content : wire),
     pickle_file w = Some content ->
     (load content = None
      \/ exists o, load content = Some o
           /\ (isinstance_list o = false
               \/ exists n, len o = Some n /\ (Z.of_nat n < 100)%Z)) ->
     TheCarSpec.main web w = TheCarSpec.main web (unlink w)
     /\ pickle_file (unlink w) = None
     /\ exists n rest,
          log (TheCarSpec.main web w).2
          = (log w ++ PickleRemoved :: Ran Brands n :: rest)%list)
  /\ (forall (wire : Type) (P : Pickle wire) (web : TheCarSpec2.site)
             (w : world wire) (content : wire),
        pickle_file w = Some content ->
        (load content = None
         \/ exists o, load content = Some o
              /\ (len o = None
                  \/ exists n, len o = Some n /\ (Z.of_nat n < 10000)%Z)) ->
        TheCarSpec2.main web w = TheCarSpec2.main web (unlink w)
        /\ pickle_file (unlink w) = None
        /\ exists n rest,
             log (TheCarSpec2.main web w).2
             = (log w ++ PickleRemoved :: Ran Brands n :: rest)%list)
  /\ (forall (wire : Type) (P : Pickle wire) (pool : Pool) (web : Autodata.site)
             (w : world wire) (content : wire) (cars : list dict),
        pickle_file w = Some content ->
        load content = Some (PyList cars) ->
        Autodata.main web w
        = (if csv_writable w then Finished else Raised, (Autodata.write_to_csv cars w).2.2)
        /\ pickle_file (Autodata.main web w).2 = Some content
        /\ exists e, log (Autodata.main web w).2 = (log w ++ [e])%list
                     /\ (e = CsvWritten \/ e = CsvFailed)).
Proof.
  split; [|split].
  - intros wire P pool web w content Hfile Hbad.
    assert (TheCarSpec.main web w = TheCarSpec.main web (unlink w)) as Hmain.
    { unfold TheCarSpec.main.
      rewrite (thecarspec_check_removes w content Hfile Hbad).
      by unfold TheCarSpec.check_pickle at 2. }
    split; [done|]. split; [done|]. rewrite Hmain.
    destruct (thecarspec_scrape_log web (unlink w)) as (n & rest & Hlog); [done|].
    exists n, rest. rewrite Hlog. simpl. by rewrite <- app_assoc.
  - intros wire P web w content Hfile Hbad.
    assert (TheCarSpec2.main web w = TheCarSpec2.main web (unlink w)) as Hmain.
    { unfold TheCarSpec2.main.
      rewrite (thecarspec2_check_removes w content Hfile Hbad).
      by unfold TheCarSpec2.check_pickle at 2. }
    split; [done|]. split; [done|]. rewrite Hmain.
    destruct (thecarspec2_scrape_log web (unlink w)) as (n & rest & Hlog); [done|].
    exists n, rest. rewrite Hlog. simpl. by rewrite <- app_assoc.
  - intros wire P pool web w content cars Hfile Hload.
    destruct w as [pf cf pw cw lg]. simpl in Hfile. subst pf.
    unfold Autodata.main, Autodata.read_pickle, pickle_load. simpl.
    rewrite Hload. simpl. unfold Autodata.write_to_csv, csv_write. simpl.
    destruct cw; simpl; (split; [done|]); (split; [done|]); eauto.
Qed.

(** The pickle of five records is removed by [theCarSpec_scraper.py],
    whose least number of records is 100. *)
Lemma cached_pickle_is_checked_witness :
  TheCarSpec.main one_brand_site five_records_cached
  = TheCarSpec.main one_brand_site (unlink five_records_cached)
  /\ pickle_file (unlink five_records_cached) = None
  /\ exists n rest,
       log (TheCarSpec.main one_brand_site five_records_cached).2
       = ([] ++ PickleRemoved :: Ran Brands n :: rest)%list.
Proof.
  apply (proj1 cached_pickle_is_checked blob _ _ one_brand_site five_records_cached
           (Pickled (PyList five_records))).
  - reflexivity.
  - right. exists (PyList five_records). split; [reflexivity|].
    right. exists 5. split; [reflexivity|lia].
Defined.

(** C7 fails as stated for [autodata_scraper.py]: with a pickle of five
    records the run ends with the pickle in place, without any stage
    having run, and with a table of the five records; with a pickle that
    does not load the run ends in the exception, the pickle in place. *)
Lemma autodata_keeps_short_pickle :
  (exists t,
     Autodata.main one_car_site five_records_cached
     = (Finished,
        World (Some (Pickled (PyList five_records))) (Some t) true true [CsvWritten])
     /\ length t = 6)
  /\ Autodata.main one_car_site (World (Some Garbage) None true true [])
     = (Raised, World (Some Garbage) None true true []).
Proof.
  split; [|vm_compute; reflexivity].
  eexists. split; [vm_compute; reflexivity|reflexivity].
Qed.

(** ** Empty stages and the moment of the save *)

Section EmptyStage.
Context {wire : Type} `{Pickle wire} `{Pool}.

(** X23: in [autodata_scraper.py] a stage that comes back empty ends the
    run: no stage after it runs, and neither the pickle nor the table is
    written. *)
Lemma autodata_empty_stage_aborts (web : Autodata.site) (w : world wire) (s : stage) :
  pickle_file w = None ->
  Autodata.output_size web s = 0 ->
  exists new,
    Autodata.main web w
    = (Returned, World None (csv_file w) (pickle_writable w) (csv_writable w)
                       (log w ++ new))
    /\ wrote new = false
    /\ Forall (fun s' => stage_index s' <= stage_index s) (ran new).
Proof.
  intros Hnone Hempty. destruct w as [pf cf pw cw lg]. simpl in Hnone. subst pf.
  unfold Autodata.main, Autodata.parse_cars. simpl.
  repeat case_bool_decide; simpl;
    (destruct s; simpl in Hempty; try lia);
    unfold record_event; simpl; rewrite <- ?app_assoc; simpl;
    (eexists; split; [reflexivity|]; split; [reflexivity|]);
    repeat constructor; simpl; lia.
Qed.

(** X24: the same in [theCarSpec_scraper.py], whose crawl has no
    generations stage. *)
Lemma thecarspec_empty_stage_aborts (web : TheCarSpec.site) (w : world wire) (s : stage) :
  pickle_file w = None ->
  TheCarSpec.output_size web s = 0 ->
  exists new,
    TheCarSpec.main web w
    = (Returned, World None (csv_file w) (pickle_writable w) (csv_writable w)
                       (log w ++ new))
    /\ wrote new = false
    /\ Forall (fun s' => stage_index s' <= stage_index s) (ran new).
Proof.
  intros Hnone Hempty. destruct w as [pf cf pw cw lg]. simpl in Hnone. subst pf.
  unfold TheCarSpec.main, TheCarSpec.check_pickle, TheCarSpec.parse_cars. simpl.
  repeat case_bool_decide; simpl;
    (destruct s; simpl in Hempty; try lia);
    unfold record_event; simpl; rewrite <- ?app_assoc; simpl;
    (eexists; split; [reflexivity|]; split; [reflexivity|]);
    repeat constructor; simpl; lia.
Qed.



End EmptyStage.

(** Once [main] of [thecarSpec_scraper2.py] found a brand it does not
    return early, whatever the later stages gather. *)
Lemma scraper2_no_return_after_brands {wire : Type} `{Pickle wire}
    (web : TheCarSpec2.site) (w : world wire) :
  pickle_file w = None ->
  TheCarSpec2.get_brands web <> [] ->
  (TheCarSpec2.main web w).1 <> Returned.
Proof.
  destruct w as [pf cf pw cw lg]. simpl. intros -> Hbrands.
  unfold TheCarSpec2.main, TheCarSpec2.check_pickle. simpl.
  destruct (TheCarSpec2.get_brands web) as [|b bs]; [done|]. simpl.
  destruct (TheCarSpec2.collect _) as [cars|]; [|done]. simpl.
  destruct (mapM _ cars) as [cars'|]; [|done].
  unfold TheCarSpec2.write_csv, pickle_dump, csv_write. simpl.
  by destruct pw, cw.
Qed.

(** C1: the run of [main] of [thecarSpec_scraper2.py] on a site with one
    brand whose page shows no model, from a world without files.  The
    models stage comes back empty and the run goes on: the variants and
    details stages run, the pickle is dumped with no record and the table
    is written with no column. *)
Theorem scraper2_goes_on_after_empty_stage :
  TheCarSpec2.main no_models_site no_files
  = (Finished,
     World (Some (Pickled (PyList []))) (Some [[]]) true true
       [Ran Brands 1; Ran Models 0; Ran Variants 0; Ran Details 0;
        PickleDumped; CsvWritten]).
Proof. vm_compute. reflexivity. Qed.

(** The same on a site with one brand and one model whose page shows no
    variant. *)
Lemma scraper2_goes_on_after_empty_variants :
  TheCarSpec2.main no_variants_site no_files
  = (Finished,
     World (Some (Pickled (PyList []))) (Some [[]]) true true
       [Ran Brands 1; Ran Models 1; Ran Variants 0; Ran Details 0;
        PickleDumped; CsvWritten]).
Proof. vm_compute. reflexivity. Qed.




(** ** The requests that [download_page] issues *)

Section Requests.
Import Http.

Lemma urlopen_requests total connect read forcelist server i :
  i < (urlopen total connect read forcelist server i).2 <= i + total + 1.
Proof.
  revert connect read i. induction total as [|t IH]; intros connect read i; simpl.
  - destruct (server i) as [status ra text| |]; simpl; [|lia..].
    destruct (is_retry _ _ _ _); simpl; lia.
  - destruct (server i) as [status ra text| |]; simpl.
    + destruct (is_retry _ _ _ _); simpl; [|lia].
      specialize (IH connect read (S i)). lia.
    + destruct (spend connect) as [connect'|]; simpl; [|lia].
      specialize (IH connect' read (S i)). lia.
    + destruct (spend read) as [read'|]; simpl; [|lia].
      specialize (IH connect read' (S i)). lia.
Qed.

Lemma urlopen_responded total connect read forcelist server i status text n :
  urlopen total connect read forcelist server i = (Responded status text, n) ->
  exists j has_retry_after,
    n = S j /\ i <= j /\ server j = Response status has_retry_after text
    /\ status ∉ forcelist.
Proof.
  revert connect read i.
  assert (Hlast : forall t status has_retry_after,
            is_retry t forcelist status has_retry_after = false -> status ∉ forcelist).
  { intros t s ra Hr. unfold is_retry in Hr. apply orb_false_iff in Hr as [Hr _].
    by apply bool_decide_eq_false in Hr. }
  induction total as [|t IH]; intros connect read i; simpl.
  - destruct (server i) as [s ra tx| |] eqn:Hs; [|done..].
    destruct (is_retry _ _ _ _) eqn:Hr; [done|].
    intros [= -> -> <-]. exists i, ra. eauto.
  - destruct (server i) as [s ra tx| |] eqn:Hs.
    + destruct (is_retry _ _ _ _) eqn:Hr.
      * intros (j & ra' & -> & Hj & Hsj & Hf)%IH. exists j, ra'.
        repeat split; [lia|done..].
      * intros [= -> -> <-]. exists i, ra. eauto.
    + destruct (spend connect) as [connect'|]; [|done].
      intros (j & ra' & -> & Hj & Hsj & Hf)%IH. exists j, ra'.
      repeat split; [lia|done..].
    + destruct (spend read) as [read'|]; [|done].
      intros (j & ra' & -> & Hj & Hsj & Hf)%IH. exists j, ra'.
      repeat split; [lia|done..].
Qed.

(** After [k] failed connections that the budgets allow, the loop is
    where it would be with the budgets lowered by [k]. *)
Lemma urlopen_connection_failures k :
  forall total connect read forcelist server i,
    (forall c, connect = Some c -> k <= c) ->
    (forall j, j < k -> server (i + j) = ConnectionFailed) ->
    urlopen (k + total) connect read forcelist server i
    = urlopen total ((fun c => c - k) <$> connect) read forcelist server (i + k).
Proof.
  induction k as [|k IH]; intros total connect read forcelist server i Hc Hs.
  - rewrite Nat.add_0_r. destruct connect as [c|]; simpl; [|done].
    by rewrite Nat.sub_0_r.
  - change (S k + total) with (S (k + total)). simpl.
    rewrite <- (Nat.add_0_r i) at 1. rewrite Hs by lia.
    destruct connect as [c|]; simpl.
    + specialize (Hc c eq_refl). destruct c as [|c]; [lia|]. simpl.
      rewrite IH.
      * simpl. f_equal. lia.
      * intros c' [= <-]. lia.
      * intros j Hj. rewrite <- Hs with (j := S j) by lia. f_equal. lia.
    + rewrite IH.
      * simpl. f_equal. lia.
      * done.
      * intros j Hj. rewrite <- Hs with (j := S j) by lia. f_equal. lia.
Qed.

(** X1: for a page that is answered without a redirect, [download_page]
    issues at least one request and at most [total + 1] of them,
    whatever the server answers: six for the sessions of
    [autodata_scraper.py] and [theCarSpec_scraper.py], four for the
    session of [thecarSpec_scraper2.py]. *)
Theorem download_page_requests (server : nat -> outcome) :
  (forall r : Retry, 1 <= (download_page (Some r) server).2 <= total r + 1)
  /\ (download_page (Some Autodata.init_session) server).2 <= 6
  /\ (download_page (Some TheCarSpec.init_session) server).2 <= 6
  /\ (download_page (Some TheCarSpec2.session) server).2 <= 4.
Proof.
  assert (Hall : forall r : Retry,
            1 <= (download_page (Some r) server).2 <= total r + 1).
  { intros r. unfold download_page.
    pose proof (urlopen_requests (total r) (connect r) (read r)
                  (status_forcelist r) server 0) as Hn.
    destruct (urlopen _ _ _ _ _ _) as [[status text|] n]; simpl in *;
      [destruct (raise_for_status status)|]; simpl; lia. }
  split; [exact Hall|].
  split; [|split]; apply Hall.
Qed.

(** X2: the text that [download_page] returns is the text of the
    response to its last request, and the status of that response is
    neither a 4xx or 5xx status nor a status of the force list of the
    session. *)
Theorem download_page_text (r : Retry) (server : nat -> outcome) (text : string)
    (n : nat) :
  download_page (Some r) server = (Some text, n) ->
  exists j status has_retry_after,
    n = S j
    /\ server j = Response status has_retry_after text
    /\ ~ (400 <= status < 600)%Z
    /\ status ∉ status_forcelist r.
Proof.
  unfold download_page.
  destruct (urlopen _ _ _ _ _ _) as [[status tx|] m] eqn:Hu; [|done].
  unfold raise_for_status. case_bool_decide as Hst; [done|].
  intros [= -> ->].
  apply urlopen_responded in Hu as (j & ra & -> & _ & Hs & Hf).
  exists j, status, ra. done.
Qed.

Lemma download_page_text_witness :
  exists j status has_retry_after,
    1 = S j
    /\ (fun _ : nat => Response 200 false "<html></html>") j
       = Response status has_retry_after "<html></html>"
    /\ ~ (400 <= status < 600)%Z
    /\ status ∉ status_forcelist TheCarSpec.init_session.
Proof.
  apply (download_page_text TheCarSpec.init_session
           (fun _ => Response 200 false "<html></html>") "<html></html>" 1).
  reflexivity.
Defined.

(** X3: a connection that fails is tried again as long as the budgets
    [total] and [connect] of the session allow: after [k] failures a
    response that calls for no retry is handled as if it had come at
    once, and [k + 1] requests were issued. *)
Theorem connection_failures_are_retried (r : Retry) (k : nat)
    (server : nat -> outcome) (status : Z) (has_retry_after : bool)
    (body : string) :
  k <= total r ->
  (forall c, connect r = Some c -> k <= c) ->
  (forall j, j < k -> server j = ConnectionFailed) ->
  server k = Response status has_retry_after body ->
  is_retry (total r - k) (status_forcelist r) status has_retry_after = false ->
  download_page (Some r) server
  = (if raise_for_status status then None else Some body, S k).
Proof.
  intros Hk Hc Hfail Hresp Hfinal. unfold download_page.
  replace (total r) with (k + (total r - k)) at 1 by lia.
  rewrite urlopen_connection_failures; [|done|done]. simpl.
  rewrite (urlopen_return _ _ _ _ _ _ _ _ _ Hresp Hfinal).
  by destruct (raise_for_status status).
Qed.

Lemma connection_failures_are_retried_witness :
  download_page (Some Autodata.init_session)
    (fun i => if (i <? 2)%nat then ConnectionFailed else Response 200 false "<html></html>")
  = (if raise_for_status 200 then None else Some "<html></html>", 3).
Proof.
  apply (connection_failures_are_retried Autodata.init_session 2
           (fun i => if (i <? 2)%nat then ConnectionFailed
                     else Response 200 false "<html></html>")
           200 false "<html></html>").
  - simpl. lia.
  - simpl. intros c [= <-]. lia.
  - intros j Hj. destruct j as [|[|j]]; [reflexivity|reflexivity|lia].
  - reflexivity.
  - reflexivity.
Defined.

(** X4: a server whose connections all fail is given up after
    [min total connect + 1] requests, and [download_page] returns
    [None]. *)
Theorem connection_failures_exhaust (r : Retry) (c : nat) (server : nat -> outcome) :
  connect r = Some c ->
  (forall j, j <= Nat.min (total r) c -> server j = ConnectionFailed) ->
  download_page (Some r) server = (None, S (Nat.min (total r) c)).
Proof.
  intros Hc Hfail. unfold download_page.
  set (m := Nat.min (total r) c) in *.
  replace (total r) with (m + (total r - m)) at 1 by lia.
  rewrite urlopen_connection_failures.
  - rewrite Hc. simpl.
    assert (Hm : total r - m = 0 \/ c - m = 0) by lia.
    destruct (total r - m) as [|t] eqn:Ht; simpl.
    + by rewrite Hfail by lia.
    + destruct Hm as [Hm| ->]; [done|]. by rewrite Hfail by lia.
  - intros c' Hc'. rewrite Hc in Hc'. injection Hc' as <-. lia.
  - intros j Hj. apply Hfail. simpl. lia.
Qed.

Lemma connection_failures_exhaust_witness :
  download_page (Some Autodata.init_session) (fun _ => ConnectionFailed)
  = (None, S (Nat.min (total Autodata.init_session) 5)).
Proof.
  apply (connection_failures_exhaust Autodata.init_session 5 (fun _ => ConnectionFailed)).
  - reflexivity.
  - reflexivity.
Defined.

End Requests.

(** ** The table that [write_to_csv] writes *)

Section Tables.

Lemma elem_of_keys (d : dict) k : k ∈ Dict.keys d <-> is_Some (Dict.get d k).
Proof.
  unfold Dict.keys. induction d as [|[k' v] d IH]; csimpl.
  - split; [by intros ?%elem_of_nil|]. by intros [? ?].
  - rewrite elem_of_cons, IH. destruct (decide (k' = k)) as [->|Hne].
    + split; [by eexists|by left].
    + split; [by intros [->|?]|by right].
Qed.

Lemma get_default_pad (names : list string) (car : dict) k :
  Dict.get_default (Autodata.pad names car) k "" = Dict.get_default car k "".
Proof.
  unfold Dict.get_default. rewrite get_pad.
  destruct (Dict.get car k); [done|]. by destruct (decide (k ∈ names)).
Qed.

Lemma csv_row_pad (names names' : list string) (car : dict) :
  csv_row names' (Autodata.pad names car) = csv_row names' car.
Proof.
  unfold csv_row. apply list_fmap_ext. intros i k _. apply get_default_pad.
Qed.

Lemma elem_of_priority_columns (priority : list string) (keys : gset string) k :
  k ∈ (priority ++ filter (fun k => k ∉ priority) (elements keys))%list
  <-> k ∈ priority \/ k ∈ keys.
Proof.
  rewrite elem_of_app, list_elem_of_filter, elem_of_elements.
  destruct (decide (k ∈ priority)); tauto.
Qed.

Lemma NoDup_priority_columns (priority : list string) (keys : gset string) :
  NoDup priority ->
  NoDup (priority ++ filter (fun k => k ∉ priority) (elements keys))%list.
Proof.
  intros Hp. apply NoDup_app. split; [done|]. split.
  - intros k Hk [Hout _]%list_elem_of_filter. done.
  - apply NoDup_filter, NoDup_elements.
Qed.

Lemma NoDup_autodata_priority_keys : NoDup Autodata.priority_keys.
Proof. apply (bool_decide_unpack _). vm_compute. exact I. Qed.

Lemma NoDup_thecarspec_priority_keys : NoDup TheCarSpec.priority_keys.
Proof. apply (bool_decide_unpack _). vm_compute. exact I. Qed.

(** A padded record has every name of the list, and no field that is
    neither its own nor of the list. *)
Lemma keys_pad (names : list string) (car : dict) k :
  k ∈ Dict.keys (Autodata.pad names car) <-> k ∈ Dict.keys car \/ k ∈ names.
Proof.
  rewrite !elem_of_keys, get_pad. destruct (Dict.get car k) as [v|].
  - split; [by left|by eexists].
  - destruct (decide (k ∈ names)).
    + split; [by right|by eexists].
    + split; [by intros [? ?]|]. by intros [[? ?]|?].
Qed.

Lemma pad_all_present (names : list string) (car : dict) :
  (forall k, k ∈ names -> k ∈ Dict.keys car) -> Autodata.pad names car = car.
Proof.
  unfold Autodata.pad. induction names as [|n names IH]; intros Hall; simpl; [done|].
  rewrite setdefault_present.
  - apply IH. intros k Hk. apply Hall. by right.
  - apply elem_of_keys, Hall. by left.
Qed.

(** X5: the table that [write_to_csv] of [autodata_scraper.py] writes.
    No column comes twice; every row has one cell for each column; the
    cell is the value that the record had for the column before it was
    padded, and the empty string when it had none; and the fields of
    every padded record are the columns, so no record has a field that
    the writer does not know. *)
Theorem write_to_csv_table {wire : Type} (cars : list dict) (w : world wire) :
  csv_writable w = true ->
  let names := Autodata.fieldnames cars in
  csv_file (Autodata.write_to_csv cars w).2.2
  = Some (names :: ((fun car => (fun k => Dict.get_default car k "") <$> names) <$> cars))
  /\ NoDup names
  /\ Forall (fun row : list string => length row = length names)
            (csv_row names <$> (Autodata.write_to_csv cars w).1)
  /\ Forall (fun car : dict => forall k, k ∈ Dict.keys car <-> k ∈ names)
            (Autodata.write_to_csv cars w).1.
Proof.
  intros Hw names. unfold Autodata.write_to_csv, csv_write. fold names.
  rewrite Hw. cbn [fst snd csv_file]. split; [|split; [|split]].
  - do 2 f_equal. rewrite <- list_fmap_compose. apply list_fmap_ext.
    intros i car _. unfold compose. apply csv_row_pad.
  - apply NoDup_priority_columns, NoDup_autodata_priority_keys.
  - apply Forall_fmap, Forall_fmap, Forall_forall. intros car _. unfold compose.
    unfold csv_row. by rewrite length_fmap.
  - apply Forall_fmap, Forall_forall. intros car Hcar k. unfold compose.
    rewrite keys_pad. split; [|by right]. intros [Hk|Hk]; [|done].
    apply elem_of_priority_columns. right. apply elem_of_all_keys. eauto.
Qed.

Lemma write_to_csv_table_witness :
  let cars : list dict := [[("Zeta", "1")]; [("Brand", "Audi")]] in
  let names := Autodata.fieldnames cars in
  csv_file (Autodata.write_to_csv cars no_files).2.2
  = Some (names :: ((fun car => (fun k => Dict.get_default car k "") <$> names) <$> cars))
  /\ NoDup names
  /\ Forall (fun row : list string => length row = length names)
            (csv_row names <$> (Autodata.write_to_csv cars no_files).1)
  /\ Forall (fun car : dict => forall k, k ∈ Dict.keys car <-> k ∈ names)
            (Autodata.write_to_csv cars no_files).1.
Proof.
  apply (write_to_csv_table [[("Zeta", "1")]; [("Brand", "Audi")]] no_files).
  reflexivity.
Defined.

(** X6: [write_to_csv] of [autodata_scraper.py], run again on the
    records that it padded, finds the same columns and changes no
    record. *)
Theorem write_to_csv_twice {wire : Type} (cars : list dict) (w w' : world wire) :
  let padded := (Autodata.write_to_csv cars w).1 in
  Autodata.fieldnames padded ≡ₚ Autodata.fieldnames cars
  /\ (Autodata.write_to_csv padded w').1 = padded.
Proof.
  simpl. set (names := Autodata.fieldnames cars).
  set (padded := Autodata.pad names <$> cars).
  assert (Hkeys : forall k, k ∈ Autodata.fieldnames padded <-> k ∈ names).
  { intros k. unfold names, Autodata.fieldnames.
    rewrite !elem_of_priority_columns, !elem_of_all_keys. split.
    - intros [Hk|(car' & (car & -> & Hcar)%list_elem_of_fmap & Hk)]; [by left|].
      apply keys_pad in Hk as [Hk|Hk]; [right; eauto|].
      unfold names, Autodata.fieldnames in Hk.
      apply elem_of_priority_columns in Hk. by rewrite elem_of_all_keys in Hk.
    - intros [Hk|(car & Hcar & Hk)]; [by left|]. right.
      exists (Autodata.pad names car). split.
      + apply list_elem_of_fmap. eauto.
      + apply keys_pad. by left. }
  split.
  - apply NoDup_Permutation; [| |done];
      apply NoDup_priority_columns, NoDup_autodata_priority_keys.
  - change ((Autodata.pad (Autodata.fieldnames padded) <$> padded) = padded).
    rewrite <- (list_fmap_id padded) at 3. apply list_fmap_ext.
    intros i car' Hcar'. unfold id. apply pad_all_present. intros k Hk.
    apply list_elem_of_lookup_2, list_elem_of_fmap in Hcar' as (car & -> & Hcar).
    apply keys_pad. right. by apply Hkeys.
Qed.

End Tables.

(** ** The columns of [thecarSpec_scraper2.py] *)

Section Scraper2Columns.

Lemma NoDup_scraper2_priority : NoDup TheCarSpec2.priority.
Proof. apply (bool_decide_unpack _). vm_compute. exact I. Qed.

Lemma union_keys_perm (cars cars' : list dict) :
  cars ≡ₚ cars' -> TheCarSpec2.union_keys cars = TheCarSpec2.union_keys cars'.
Proof.
  intros Hperm. apply set_eq. intros k. rewrite !elem_of_union_keys.
  split; intros (car & Hcar & Hk); exists car; split; try done.
  - by rewrite <- Hperm.
  - by rewrite Hperm.
Qed.

(** X7: the columns of [thecarSpec_scraper2.py] do not depend on the
    order of the records: two lists with the same records give the same
    header. *)
Theorem scraper2_fieldnames_order_free (cars cars' : list dict) :
  cars ≡ₚ cars' -> TheCarSpec2.fieldnames cars = TheCarSpec2.fieldnames cars'.
Proof.
  intros Hperm. unfold TheCarSpec2.fieldnames.
  by rewrite (union_keys_perm _ _ Hperm).
Qed.

Lemma scraper2_fieldnames_order_free_witness :
  TheCarSpec2.fieldnames [[("b", "1")]; [("a", "2"); ("Brand", "X")]]
  = TheCarSpec2.fieldnames [[("a", "2"); ("Brand", "X")]; [("b", "1")]].
Proof.
  apply (scraper2_fieldnames_order_free
           [[("b", "1")]; [("a", "2"); ("Brand", "X")]]
           [[("a", "2"); ("Brand", "X")]; [("b", "1")]]).
  apply perm_swap.
Defined.

(** X8: the table of [thecarSpec_scraper2.py].  The header holds the
    fields of the records and nothing else, each once, so every record
    has only fields that the writer knows; every row has one cell for
    each column, with the empty string where the record lacks the
    field. *)
Theorem scraper2_table {wire : Type} `{Pickle wire} (cars : list dict)
    (w : world wire) :
  csv_writable w = true ->
  let names := TheCarSpec2.fieldnames cars in
  NoDup names
  /\ (forall k, k ∈ names <-> exists car, car ∈ cars /\ k ∈ Dict.keys car)
  /\ (TheCarSpec2.write_csv cars w).1 = Finished
  /\ csv_file (TheCarSpec2.write_csv cars w).2
     = Some (names :: ((fun car => (fun k => Dict.get_default car k "") <$> names)
                       <$> cars))
  /\ Forall (fun row : list string => length row = length names)
            (csv_row names <$> cars).
Proof.
  intros Hw names.
  assert (Hin : forall k, k ∈ names <-> exists car, car ∈ cars /\ k ∈ Dict.keys car).
  { intros k. unfold names, TheCarSpec2.fieldnames.
    rewrite elem_of_app, merge_sort_Permutation, !list_elem_of_filter,
      elem_of_elements, elem_of_union_keys.
    destruct (decide (k ∈ TheCarSpec2.priority)); tauto. }
  split; [|split; [done|]].
  - unfold names, TheCarSpec2.fieldnames. apply NoDup_app. split; [|split].
    + apply NoDup_filter, NoDup_scraper2_priority.
    + intros k [_ Hk]%list_elem_of_filter.
      rewrite merge_sort_Permutation, list_elem_of_filter. tauto.
    + rewrite merge_sort_Permutation. apply NoDup_filter, NoDup_elements.
  - unfold TheCarSpec2.write_csv, csv_write. fold names. rewrite Hw.
    cbn [fst snd csv_file]. split; [done|]. split; [done|].
    apply Forall_fmap, Forall_forall. intros car _. unfold compose, csv_row.
    by rewrite length_fmap.
Qed.

Lemma scraper2_table_witness :
  let cars : list dict := [[("b", "1")]; [("a", "2"); ("Brand", "X")]] in
  let names := TheCarSpec2.fieldnames cars in
  NoDup names
  /\ (forall k, k ∈ names <-> exists car, car ∈ cars /\ k ∈ Dict.keys car)
  /\ (TheCarSpec2.write_csv cars no_files).1 = Finished
  /\ csv_file (TheCarSpec2.write_csv cars no_files).2
     = Some (names :: ((fun car => (fun k => Dict.get_default car k "") <$> names)
                       <$> cars))
  /\ Forall (fun row : list string => length row = length names)
            (csv_row names <$> cars).
Proof.
  apply (scraper2_table [[("b", "1")]; [("a", "2"); ("Brand", "X")]] no_files).
  reflexivity.
Defined.

End Scraper2Columns.

(** ** The fields of a record, in order *)

Section FieldOrder.
Import Soup.

Lemma first_seen_from_ext (seen seen' ks : list string) :
  (forall k, k ∈ seen <-> k ∈ seen') ->
  first_seen_from seen ks = first_seen_from seen' ks.
Proof.
  revert seen seen'. induction ks as [|k0 ks IH]; intros seen seen' Hext; simpl; [done|].
  destruct (decide (k0 ∈ seen)) as [Hin|Hout].
  - rewrite decide_True by by apply Hext. by apply IH.
  - rewrite decide_False by by rewrite <- Hext. f_equal. apply IH.
    intros k. rewrite !elem_of_cons, Hext. done.
Qed.

Lemma length_first_seen_from (seen ks : list string) :
  length (first_seen_from seen ks) <= length ks.
Proof.
  revert seen. induction ks as [|k0 ks IH]; intros seen; simpl; [done|].
  destruct (decide (k0 ∈ seen)); simpl.
  - specialize (IH seen). lia.
  - specialize (IH (k0 :: seen)). lia.
Qed.

Lemma length_omap_le {A B : Type} (f : A -> option B) (l : list A) :
  length (omap f l) <= length l.
Proof.
  induction l as [|x l IH]; csimpl; [done|]. destruct (f x); simpl; lia.
Qed.

(** The keys after a sequence of [setdefault]s: those of the start, then
    the new ones in the order in which they were first written. *)
Lemma keys_foldl_setdefault (writes : list (string * string)) (init : dict) :
  Dict.keys (foldl (fun d kv => Dict.setdefault d kv.1 kv.2) init writes)
  = (Dict.keys init ++ first_seen_from (Dict.keys init) writes.*1)%list.
Proof.
  revert init. induction writes as [|[k0 v0] writes IH]; intros init; csimpl.
  - by rewrite app_nil_r.
  - rewrite IH. destruct (decide (k0 ∈ Dict.keys init)) as [Hin|Hout].
    + rewrite setdefault_present; [done|]. by apply elem_of_keys.
    + rewrite setdefault_fresh.
      * unfold Dict.keys. rewrite fmap_app, <- app_assoc. csimpl. do 2 f_equal.
        apply first_seen_from_ext. intros k.
        rewrite elem_of_app, !elem_of_cons, elem_of_nil. tauto.
      * apply eq_None_not_Some. by rewrite <- elem_of_keys.
Qed.

Lemma foldl_setdefault_prefix (writes : list (string * string)) (init : dict) :
  init `prefix_of` foldl (fun d kv => Dict.setdefault d kv.1 kv.2) init writes.
Proof.
  revert init. induction writes as [|[k0 v0] writes IH]; intros init; simpl; [done|].
  etrans; [|apply IH]. unfold Dict.setdefault.
  destruct (Dict.mem k0 init) eqn:E; [done|].
  apply mem_false in E. rewrite (set_fresh _ _ _ E). by apply prefix_app_r.
Qed.

(** X9: the fields of the record that [parse_car] of
    [autodata_scraper.py] builds are the labels of the rows of the
    table, each once, in the order in which the table first shows them;
    the record has at most one field for each row. *)
Theorem parse_car_field_order (table : tag) :
  let rows := find_all table "tr" in
  let record := Autodata.parse_car (Some table) in
  Dict.keys record = first_seen_from [] (omap autodata_row_write rows).*1
  /\ NoDup (Dict.keys record)
  /\ length record <= length rows.
Proof.
  intros rows record.
  assert (Hkeys : Dict.keys record
                  = first_seen_from [] (omap autodata_row_write rows).*1).
  { unfold record, Autodata.parse_car.
    rewrite (foldl_rows_writes _ _ autodata_parse_row_write).
    by rewrite keys_foldl_setdefault. }
  split; [done|]. split.
  - rewrite Hkeys. apply NoDup_first_seen_from.
  - rewrite <- (length_fmap fst record). fold (Dict.keys record). rewrite Hkeys.
    etrans; [apply length_first_seen_from|]. rewrite length_fmap.
    apply length_omap_le.
Qed.

(** X10: the record that [parse_car] of [carsdirectory_scraper.py]
    builds starts with the brand and the model of the variant page, as
    the crawl handed them down, and has no other field named [Brand] or
    [BrandModel]: a row of the table with one of these labels is passed
    over. *)
Theorem carsdirectory_brand_from_crawl (variant_page : CarsDirectory.VariantPage)
    (table : tag) :
  exists rest : dict,
    CarsDirectory.parse_car variant_page (Some table)
    = ("Brand", CarsDirectory.brand variant_page)
      :: ("BrandModel", CarsDirectory.model variant_page) :: rest
    /\ ("Brand" ∉ Dict.keys rest)
    /\ ("BrandModel" ∉ Dict.keys rest)
    /\ NoDup (Dict.keys rest).
Proof.
  unfold CarsDirectory.parse_car.
  rewrite (foldl_rows_writes _ _ carsdirectory_parse_row_write).
  set (init := [("Brand", CarsDirectory.brand variant_page);
                ("BrandModel", CarsDirectory.model variant_page)]).
  set (writes := omap carsdirectory_row_write (find_all table "tr")).
  destruct (foldl_setdefault_prefix writes init) as [rest Hrest].
  exists rest. split; [by rewrite Hrest|].
  pose proof (keys_foldl_setdefault writes init) as Hkeys.
  rewrite Hrest in Hkeys. unfold Dict.keys in Hkeys. rewrite fmap_app in Hkeys.
  apply app_inv_head in Hkeys. fold (Dict.keys rest) in Hkeys. rewrite Hkeys.
  split; [|split].
  - rewrite elem_of_first_seen_from. intros [_ Hout]. apply Hout. by left.
  - rewrite elem_of_first_seen_from. intros [_ Hout]. apply Hout. right. by left.
  - apply NoDup_first_seen_from.
Qed.

End FieldOrder.

(** ** The records of the detail pages of thecarspec.net *)

Section DetailPages.

Lemma is_Some_get_set (d : dict) k v k' :
  is_Some (Dict.get d k') -> is_Some (Dict.get (Dict.set d k v) k').
Proof.
  intros Hd. destruct (decide (k = k')) as [->|Hne].
  - rewrite get_set_eq. by eexists.
  - by rewrite get_set_ne.
Qed.

Lemma length_set (d : dict) k v : length d <= length (Dict.set d k v).
Proof.
  induction d as [|[k' v'] d IH]; simpl; [lia|].
  destruct (decide (k' = k)); simpl; lia.
Qed.

Lemma foldl_bind_None {A B : Type} (step : A -> B -> option A) (rows : list B) :
  foldl (fun acc r => acc ≫= fun a => step a r) None rows = None.
Proof. induction rows as [|r rows IH]; simpl; [done|apply IH]. Qed.

(** What every step keeps, the loop keeps. *)
Lemma foldl_bind_invariant {A B : Type} (step : A -> B -> option A) (P : A -> Prop) :
  (forall a r a', P a -> step a r = Some a' -> P a') ->
  forall rows a a',
    P a -> foldl (fun acc r => acc ≫= fun a => step a r) (Some a) rows = Some a' -> P a'.
Proof.
  intros Hstep rows. induction rows as [|r rows IH]; intros a a' Ha; simpl.
  - by intros [= <-].
  - destruct (step a r) as [a1|] eqn:Hr.
    + apply IH. by apply (Hstep a r).
    + by rewrite foldl_bind_None.
Qed.

(** The loop raises when one of its steps does, for a step that raises
    or not whatever the record holds. *)
Lemma foldl_bind_raises {A B : Type} (step : A -> B -> option A) (bad : B -> Prop) :
  (forall a r, step a r = None <-> bad r) ->
  forall rows a,
    foldl (fun acc r => acc ≫= fun a => step a r) (Some a) rows = None
    <-> Exists bad rows.
Proof.
  intros Hbad rows. induction rows as [|r rows IH]; intros a; simpl.
  - split; [done|]. by intros ?%Exists_nil.
  - rewrite Exists_cons. destruct (step a r) as [a1|] eqn:Hr.
    + rewrite IH. split; [by right|]. intros [Hr'|?]; [|done].
      apply (Hbad a) in Hr'. congruence.
    + rewrite foldl_bind_None. split; [|done]. intros _. left. by apply (Hbad a).
Qed.

Lemma scraper2_store_row_keeps (data data' : dict) (r : TheCarSpec2.row) k :
  is_Some (Dict.get data k) -> TheCarSpec2.store_row data r = Some data' ->
  is_Some (Dict.get data' k) /\ length data <= length data'.
Proof.
  intros Hk. unfold TheCarSpec2.store_row.
  destruct (TheCarSpec2.row_th r) as [key|]; [|by intros [= <-]].
  destruct (TheCarSpec2.row_td r) as [value|]; [|by intros [= <-]].
  repeat (destruct (decide _);
          [intros [= <-]; split; [by apply is_Some_get_set|apply length_set]|]).
  destruct (_ || _);
    [intros [= <-]; split; [by apply is_Some_get_set|apply length_set]|].
  destruct (decide _).
  - destruct (Str.split value); [done|].
    intros [= <-]; split; [by apply is_Some_get_set|apply length_set].
  - intros [= <-]; split; [by apply is_Some_get_set|apply length_set].
Qed.

Lemma scraper2_store_row_raises (data : dict) (r : TheCarSpec2.row) :
  TheCarSpec2.store_row data r = None <-> blank_curb_weight r.
Proof.
  unfold TheCarSpec2.store_row, blank_curb_weight, curb_weight_label.
  destruct (TheCarSpec2.row_th r) as [key|]; [|by split; [|intros [? _]]].
  destruct (TheCarSpec2.row_td r) as [value|];
    [|by split; [|intros [_ (? & ? & _)]]].
  split.
  - repeat (destruct (decide _); [done|]).
    destruct (_ || _); [done|].
    destruct (decide _) as [->|]; [|done].
    destruct (Str.split value) eqn:Hsplit; [|done]. eauto.
  - intros [[= ->] (v & [= <-] & Hsplit)].
    rewrite !decide_False by discriminate.
    replace ((bool_decide ("Curb weight kg -lbs total" = "Power (hp)")
              && Str.is_infix "Power (hp)" "Curb weight kg -lbs total")
             || Str.is_infix "horsepower" (Str.lower "Curb weight kg -lbs total"))
      with false by (vm_compute; reflexivity).
    rewrite decide_True by done. by rewrite Hsplit.
Qed.

Lemma get_car_data_fields (detail_url : string) (html : option TheCarSpec2.page)
    (data : dict) :
  TheCarSpec2.get_car_data detail_url html = TheCarSpec2.Extracted data ->
  is_Some (Dict.get data "URL")
  /\ is_Some (Dict.get data "Version")
  /\ 6 < length data
  /\ is_Some (TheCarSpec2.backfill data).
Proof.
  unfold TheCarSpec2.get_car_data. destruct html as [p|]; [|done].
  set (start := match TheCarSpec2.page_version p with
                | Some version => Dict.set [("URL", detail_url)] "Version" version
                | None => [("URL", detail_url)]
                end).
  destruct (TheCarSpec2.store_rows start _) as [d|] eqn:Hrows; [|done].
  destruct (bool_decide (6 < length d)) eqn:Hlen; [|done].
  destruct (Dict.mem "Version" d) eqn:Hversion; [|done].
  intros [= <-].
  assert (Hurl : is_Some (Dict.get d "URL")).
  { revert Hrows. unfold TheCarSpec2.store_rows.
    apply (foldl_bind_invariant _ (fun d => is_Some (Dict.get d "URL"))).
    - intros a r a' Ha Hr. by apply (scraper2_store_row_keeps a a' r).
    - unfold start. destruct (TheCarSpec2.page_version p); vm_compute; by eexists. }
  split; [done|]. split; [by apply mem_true|].
  apply bool_decide_eq_true in Hlen. split; [done|].
  unfold TheCarSpec2.backfill. destruct (_ || _); [|by eexists].
  destruct Hurl as [url ->]. cbv beta iota zeta. destruct (bool_decide _); by eexists.
Qed.

(** X11: a record that [get_car_data] returns has the fields [URL] and
    [Version] and more than six fields in all; the loop of [main] that
    adds [Brand] and [Model] finds the [URL] it reads and does not
    raise. *)
Theorem get_car_data_record (detail_url : string) (html : option TheCarSpec2.page)
    (data : dict) :
  TheCarSpec2.get_car_data detail_url html = TheCarSpec2.Extracted data ->
  is_Some (Dict.get data "URL")
  /\ is_Some (Dict.get data "Version")
  /\ 6 < length data
  /\ is_Some (TheCarSpec2.backfill data).
Proof. apply get_car_data_fields. Qed.

Lemma get_car_data_record_witness :
  let data : dict :=
    [("URL", "u"); ("Version", "124 GT 2018"); ("Brand", "Abarth"); ("Model", "124");
     ("Fuel type", "Petrol"); ("Doors", "2"); ("Seats", "2")] in
  is_Some (Dict.get data "URL")
  /\ is_Some (Dict.get data "Version")
  /\ 6 < length data
  /\ is_Some (TheCarSpec2.backfill data).
Proof.
  apply (get_car_data_record "u" (TheCarSpec2.detail_page one_car_site2 "u")).
  reflexivity.
Defined.

Lemma get_car_data_raises (detail_url : string) (html : option TheCarSpec2.page) :
  TheCarSpec2.get_car_data detail_url html = TheCarSpec2.IndexError
  <-> exists p, html = Some p /\ Exists blank_curb_weight (TheCarSpec2.page_rows p).
Proof.
  unfold TheCarSpec2.get_car_data. destruct html as [p|];
    [|by split; [|intros (? & ? & _)]].
  set (start := match TheCarSpec2.page_version p with
                | Some version => Dict.set [("URL", detail_url)] "Version" version
                | None => [("URL", detail_url)]
                end).
  pose proof (foldl_bind_raises TheCarSpec2.store_row blank_curb_weight
                scraper2_store_row_raises (TheCarSpec2.page_rows p) start) as Hraises.
  fold (TheCarSpec2.store_rows start (TheCarSpec2.page_rows p)) in Hraises.
  destruct (TheCarSpec2.store_rows start _) as [d|].
  - split.
    + by destruct (_ && _).
    + intros (p' & [= <-] & Hbad). by apply Hraises in Hbad.
  - split; [|done]. intros _. exists p. split; [done|]. by apply Hraises.
Qed.

(** X12: [get_car_data] raises the [IndexError] for the pages, and only
    for the pages, that have a row labelled [Curb weight kg -lbs total]
    whose value holds no word. *)
Theorem get_car_data_index_error (detail_url : string) (p : TheCarSpec2.page) :
  TheCarSpec2.get_car_data detail_url (Some p) = TheCarSpec2.IndexError
  <-> Exists blank_curb_weight (TheCarSpec2.page_rows p).
Proof.
  rewrite get_car_data_raises. split.
  - by intros (p' & [= <-] & Hbad).
  - intros Hbad. by exists p.
Qed.


Lemma collect_Some (results : list TheCarSpec2.extracted) (cars : list dict) :
  TheCarSpec2.collect results = Some cars ->
  forall car, car ∈ cars -> TheCarSpec2.Extracted car ∈ results.
Proof.
  revert cars. induction results as [|[data| |] results IH]; intros cars; simpl.
  - intros [= <-] car ?%elem_of_nil. done.
  - destruct (TheCarSpec2.collect results) as [rest|]; [|done]. simpl.
    intros [= <-] car [->|Hcar]%elem_of_cons; [by left|].
    right. by apply (IH rest).
  - intros Hc car Hcar. right. by apply (IH cars).
  - done.
Qed.

(** The loop of [main] that adds [Brand] and [Model] does not raise on
    the records that the details stage gathered. *)
Lemma backfill_collected (web : TheCarSpec2.site) (cars : list dict) :
  TheCarSpec2.collect (TheCarSpec2.results web) = Some cars ->
  is_Some (mapM TheCarSpec2.backfill cars).
Proof.
  intros Hc. apply mapM_is_Some, Forall_forall. intros car Hcar.
  apply (collect_Some _ _ Hc) in Hcar. unfold TheCarSpec2.results in Hcar.
  apply list_elem_of_fmap in Hcar as (url & Hurl & _). symmetry in Hurl.
  by apply get_car_data_fields in Hurl as (_ & _ & _ & ?).
Qed.

End DetailPages.

(** ** How a run of [thecarSpec_scraper2.py] ends *)

Section Scraper2Exit.
Context {wire : Type} `{Pickle wire}.


End Scraper2Exit.



(** ** [Brand] and [Model] from the URL *)

Section Backfill.

(** X14: the loop of [main] of [thecarSpec_scraper2.py] that adds
    [Brand] and [Model], on a record whose URL has six segments or more,
    leaves a record that has both fields and every field it had, and a
    second pass leaves that record as it is. *)
Theorem backfill_adds_brand_and_model (car : dict) (url : string) :
  Dict.get car "URL" = Some url ->
  6 <= length (Str.split_on Str.slash (Str.rstrip_char Str.slash url)) ->
  exists car',
    TheCarSpec2.backfill car = Some car'
    /\ is_Some (Dict.get car' "Brand")
    /\ is_Some (Dict.get car' "Model")
    /\ (forall k, is_Some (Dict.get car k) -> is_Some (Dict.get car' k))
    /\ TheCarSpec2.backfill car' = Some car'.
Proof.
  intros Hurl Hlen. unfold TheCarSpec2.backfill at 1.
  destruct (negb (Dict.mem "Brand" car) || negb (Dict.mem "Model" car)) eqn:Hmissing.
  - rewrite Hurl. cbv beta iota zeta. rewrite bool_decide_eq_true_2 by done.
    eexists. split; [reflexivity|].
    assert (HB : forall d v v', is_Some (Dict.get (Dict.set (Dict.set d "Brand" v) "Model" v') "Brand")).
    { intros d v v'. apply is_Some_get_set. rewrite get_set_eq. by eexists. }
    assert (HM : forall d v v', is_Some (Dict.get (Dict.set (Dict.set d "Brand" v) "Model" v') "Model")).
    { intros d v v'. rewrite get_set_eq. by eexists. }
    split; [apply HB|]. split; [apply HM|]. split.
    + intros k Hk. by do 2 apply is_Some_get_set.
    + unfold TheCarSpec2.backfill.
      rewrite (proj2 (mem_true _ _) (HB _ _ _)), (proj2 (mem_true _ _) (HM _ _ _)).
      done.
  - apply orb_false_iff in Hmissing as [HB HM].
    apply negb_false_iff in HB, HM. exists car. split; [done|].
    split; [by apply mem_true|]. split; [by apply mem_true|]. split; [done|].
    unfold TheCarSpec2.backfill. by rewrite HB, HM.
Qed.

Lemma backfill_adds_brand_and_model_witness :
  exists car',
    TheCarSpec2.backfill
      [("URL", "https://www.thecarspec.net/car-detail/abarth/124/gt/1"); ("Doors", "2")]
    = Some car'
    /\ is_Some (Dict.get car' "Brand")
    /\ is_Some (Dict.get car' "Model")
    /\ (forall k,
          is_Some (Dict.get [("URL", "https://www.thecarspec.net/car-detail/abarth/124/gt/1");
                             ("Doors", "2")] k)
          -> is_Some (Dict.get car' k))
    /\ TheCarSpec2.backfill car' = Some car'.
Proof.
  apply (backfill_adds_brand_and_model
           [("URL", "https://www.thecarspec.net/car-detail/abarth/124/gt/1"); ("Doors", "2")]
           "https://www.thecarspec.net/car-detail/abarth/124/gt/1").
  - reflexivity.
  - vm_compute. lia.
Defined.

End Backfill.

(** ** [parse_brands] and [parse_car] of [theCarSpec_scraper.py] *)

Section TheCarSpecPagesFacts.
Import TheCarSpecPages.

Lemma dedupe_foldl (brands : list string) :
  forall (seen : gset string) (unique seen_list : list string),
    (forall b, b ∈ seen <-> b ∈ seen_list) ->
    (foldl dedupe_step (seen, unique) brands).2
    = (unique ++ first_seen_from seen_list brands)%list.
Proof.
  induction brands as [|b brands IH]; intros seen unique seen_list Hseen; simpl.
  - by rewrite app_nil_r.
  - unfold dedupe_step at 2. simpl.
    destruct (decide (b ∈ seen)) as [Hin|Hout].
    + rewrite decide_True by by apply Hseen. by apply IH.
    + rewrite decide_False by by rewrite <- Hseen.
      rewrite (IH _ _ (b :: seen_list)).
      * by rewrite <- app_assoc.
      * intros b'. rewrite elem_of_union, elem_of_singleton, elem_of_cons, Hseen.
        tauto.
Qed.

Lemma first_seen_from_NoDup (seen l : list string) :
  NoDup l -> (forall b, b ∈ l -> b ∉ seen) -> first_seen_from seen l = l.
Proof.
  revert seen. induction l as [|b l IH]; intros seen Hl Hseen; simpl; [done|].
  apply NoDup_cons in Hl as [Hb Hl].
  rewrite decide_False by (apply Hseen; by left). f_equal. apply IH; [done|].
  intros b' Hb' [->|Hin]%elem_of_cons; [done|].
  apply (Hseen b'); [by right|done].
Qed.

(** X15: the end of [parse_brands] of [theCarSpec_scraper.py] keeps the
    first occurrence of every link, in the order of the page: no link
    comes twice, no link is lost, and a list without repeated links is
    left as it is.  With [TEST_MODE] the result is the first two of
    these links. *)
Theorem unique_brands_first_occurrences (brands : list string) :
  unique_brands false brands = first_seen_from [] brands
  /\ NoDup (unique_brands false brands)
  /\ (forall b, b ∈ unique_brands false brands <-> b ∈ brands)
  /\ unique_brands false (unique_brands false brands) = unique_brands false brands
  /\ unique_brands true brands = take 2 (unique_brands false brands)
  /\ length (unique_brands true brands) <= 2.
Proof.
  assert (Hfirst : forall l, unique_brands false l = first_seen_from [] l).
  { intros l. unfold unique_brands. rewrite (dedupe_foldl l ∅ [] []); [done|].
    intros b. rewrite elem_of_nil. set_solver. }
  split; [apply Hfirst|]. split; [|split; [|split; [|split]]].
  - rewrite Hfirst. apply NoDup_first_seen_from.
  - intros b. rewrite Hfirst, elem_of_first_seen_from, elem_of_nil. tauto.
  - rewrite !Hfirst. apply first_seen_from_NoDup.
    + apply NoDup_first_seen_from.
    + intros b _. apply not_elem_of_nil.
  - done.
  - unfold unique_brands. rewrite length_take. lia.
Qed.

Lemma thecarspec_store_row_keeps (data data' : dict) (r : TheCarSpec2.row) k v :
  k ∉ special_fields -> Dict.get data k = Some v ->
  store_row data r = Some data' -> Dict.get data' k = Some v.
Proof.
  unfold special_fields. rewrite !not_elem_of_cons.
  intros (HB & HM & HY & HF & HP & HC & _) Hk. unfold store_row.
  destruct (TheCarSpec2.row_th r) as [key|]; [|by intros [= <-]].
  destruct (TheCarSpec2.row_td r) as [value|]; [|by intros [= <-]].
  repeat (destruct (decide _); [intros [= <-]; by rewrite get_set_ne|]).
  destruct (_ || _); [intros [= <-]; by rewrite get_set_ne|].
  destruct (decide _).
  - destruct (Str.truthy value); [destruct (Str.split value); [done|]|];
      intros [= <-]; by rewrite get_set_ne.
  - destruct (Dict.mem key data) eqn:Hmem; intros [= <-]; [done|].
    rewrite get_set_ne; [done|]. intros ->. apply mem_false in Hmem. congruence.
Qed.

Lemma thecarspec_store_rows_keep (data data' : dict) (rows : list TheCarSpec2.row) k v :
  k ∉ special_fields -> Dict.get data k = Some v ->
  store_rows data rows = Some data' -> Dict.get data' k = Some v.
Proof.
  intros Hk Hv. unfold store_rows.
  apply (foldl_bind_invariant _ (fun d => Dict.get d k = Some v)); [|done].
  intros a r a' Ha Hr. by apply (thecarspec_store_row_keeps a a' r).
Qed.

(** X16: in [parse_car] of [theCarSpec_scraper.py] a field whose name is
    none of [Brand], [Model], [Year production start], [Fuel type],
    [Power (hp)] and [Curb weight (kg)] keeps the first value that was
    written for it: no later row changes it. *)
Theorem thecarspec_first_value_stays (data data' : dict)
    (rows : list TheCarSpec2.row) (k v : string) :
  k ∉ special_fields ->
  Dict.get data k = Some v ->
  store_rows data rows = Some data' ->
  Dict.get data' k = Some v.
Proof. apply thecarspec_store_rows_keep. Qed.

Lemma thecarspec_first_value_stays_witness :
  Dict.get [("URL", "u"); ("Doors", "2"); ("Brand", "Fiat")] "Doors" = Some "2".
Proof.
  apply (thecarspec_first_value_stays
           [("URL", "u"); ("Doors", "2")]
           [("URL", "u"); ("Doors", "2"); ("Brand", "Fiat")]
           [ {| TheCarSpec2.row_th := Some "Doors"; TheCarSpec2.row_td := Some "4" |};
             {| TheCarSpec2.row_th := Some "Brand"; TheCarSpec2.row_td := Some "Abarth" |};
             {| TheCarSpec2.row_th := Some "Brand"; TheCarSpec2.row_td := Some "Fiat" |} ]
           "Doors" "2").
  - apply (bool_decide_unpack _). vm_compute. exact I.
  - reflexivity.
  - reflexivity.
Defined.

(** X17: the record that [parse_car] of [theCarSpec_scraper.py] returns
    has the address of the page as its [URL] and, when the title gave a
    version, that version as its [Version], whatever the rows of the
    page are labelled; it has more than six fields. *)
Theorem thecarspec_parse_car_url (detail_url : string) (p : TheCarSpec2.page)
    (data : dict) :
  parse_car detail_url (Some p) = TheCarSpec2.Extracted data ->
  Dict.get data "URL" = Some detail_url
  /\ (forall version, TheCarSpec2.page_version p = Some version ->
                      Dict.get data "Version" = Some version)
  /\ is_Some (Dict.get data "Version")
  /\ 6 < length data.
Proof.
  unfold parse_car.
  set (start := match TheCarSpec2.page_version p with
                | Some version => Dict.set [("URL", detail_url)] "Version" version
                | None => [("URL", detail_url)]
                end).
  destruct (store_rows start _) as [d|] eqn:Hrows; [|done].
  destruct (bool_decide (6 < length d)) eqn:Hlen; [|done].
  apply bool_decide_eq_true in Hlen.
  destruct (Dict.mem "Version" d) eqn:Hversion; [|done].
  intros [= <-]. split; [|split; [|split; [by apply mem_true|done]]].
  - apply (thecarspec_store_rows_keep start d (TheCarSpec2.page_rows p)); [|  |done].
    + apply (bool_decide_unpack _). vm_compute. exact I.
    + unfold start. by destruct (TheCarSpec2.page_version p).
  - intros version Hv.
    apply (thecarspec_store_rows_keep start d (TheCarSpec2.page_rows p)); [|  |done].
    + apply (bool_decide_unpack _). vm_compute. exact I.
    + unfold start. by rewrite Hv.
Qed.

End TheCarSpecPagesFacts.

Lemma thecarspec_parse_car_url_witness :
  let data : dict :=
    [("URL", "u"); ("Version", "124 GT 2018"); ("Brand", "Abarth"); ("Model", "124");
     ("Fuel type", "Petrol"); ("Doors", "2"); ("Seats", "2")] in
  Dict.get data "URL" = Some "u"
  /\ (forall version,
        Some "124 GT 2018" = Some version -> Dict.get data "Version" = Some version)
  /\ is_Some (Dict.get data "Version")
  /\ 6 < length data.
Proof.
  refine (thecarspec_parse_car_url "u"
            {| TheCarSpec2.page_version := Some "124 GT 2018";
               TheCarSpec2.page_rows :=
                 [ {| TheCarSpec2.row_th := Some "Brand"; TheCarSpec2.row_td := Some "Abarth" |};
                   {| TheCarSpec2.row_th := Some "Model"; TheCarSpec2.row_td := Some "124" |};
                   {| TheCarSpec2.row_th := Some "Fuel type"; TheCarSpec2.row_td := Some "Petrol" |};
                   {| TheCarSpec2.row_th := Some "Doors"; TheCarSpec2.row_td := Some "2" |};
                   {| TheCarSpec2.row_th := Some "Seats"; TheCarSpec2.row_td := Some "2" |} ] |}
            _ _).
  reflexivity.
Defined.

(** ** The first word of the curb weight *)

Section CurbWeight.
Import TheCarSpecPages.

Lemma split_cons c r :
  Str.split (String c r)
  = if Str.isspace c then Str.split r
    else match r with
         | EmptyString => [String c EmptyString]
         | String d _ =>
             if Str.isspace d then String c EmptyString :: Str.split r
             else match Str.split r with
                  | [] => [String c EmptyString]
                  | w :: ws => String c w :: ws
                  end
         end.
Proof. reflexivity. Qed.

(** Every word that [split] gives starts with a character that is not
    white space. *)
Lemma split_head_nonspace s :
  forall w ws, Str.split s = w :: ws ->
               exists c r, w = String c r /\ Str.isspace c = false.
Proof.
  induction s as [|c r IH]; intros w ws; [done|].
  rewrite split_cons. destruct (Str.isspace c) eqn:Hc; [apply IH|].
  destruct r as [|d r']; [intros [= <- <-]; eauto|].
  destruct (Str.isspace d); [intros [= <- <-]; eauto|].
  destruct (Str.split (String d r')); intros [= <- <-]; eauto.
Qed.

Lemma split_nonspace_head c r : Str.isspace c = false -> Str.split (String c r) <> [].
Proof.
  intros Hc. rewrite split_cons, Hc. destruct r as [|d r']; [done|].
  destruct (Str.isspace d); [done|]. by destruct (Str.split (String d r')).
Qed.

(** A normalised value that is not empty holds a word. *)
Lemma normalise_has_word raw :
  Str.truthy (normalise raw) = true -> Str.split (normalise raw) <> [].
Proof.
  unfold normalise. destruct (Str.split raw) as [|w ws] eqn:Hs; [done|].
  apply split_head_nonspace in Hs as (c & r & -> & Hc). intros _.
  destruct ws as [|w' ws'].
  - by apply split_nonspace_head.
  - change (String.concat " " (String c r :: w' :: ws'))
      with (String c (r ++ " " ++ String.concat " " (w' :: ws'))).
    by apply split_nonspace_head.
Qed.

Lemma thecarspec_store_row_raises (data : dict) (r : TheCarSpec2.row) :
  store_row data r = None
  <-> TheCarSpec2.row_th r = Some curb_weight_label
      /\ exists value, TheCarSpec2.row_td r = Some value
                       /\ Str.truthy value = true /\ Str.split value = [].
Proof.
  unfold store_row, curb_weight_label.
  destruct (TheCarSpec2.row_th r) as [key|]; [|by split; [|intros [? _]]].
  destruct (TheCarSpec2.row_td r) as [value|];
    [|by split; [|intros [_ (? & ? & _)]]].
  split.
  - repeat (destruct (decide _); [done|]).
    destruct (_ || _); [done|].
    destruct (decide _) as [->|]; [|by destruct (Dict.mem key data)].
    destruct (Str.truthy value) eqn:Ht; [|done].
    destruct (Str.split value) eqn:Hsplit; [|done]. eauto.
  - intros [[= ->] (v & [= <-] & Ht & Hsplit)].
    rewrite !decide_False by discriminate.
    replace (Str.is_infix "Power (hp)" "Curb weight kg -lbs total"
             || Str.is_infix "horsepower" (Str.lower "Curb weight kg -lbs total"))
      with false by (vm_compute; reflexivity).
    rewrite decide_True by done. by rewrite Ht, Hsplit.
Qed.

(** X18: [parse_car] of [theCarSpec_scraper.py] does not raise the
    [IndexError] of [get_car_data]: the values it reads are normalised,
    and the first word of the curb weight is taken only from a value
    that is not empty, which then holds a word. *)
Theorem thecarspec_parse_car_no_index_error (detail_url : string)
    (p : TheCarSpec2.page) :
  Forall (fun r => forall value, TheCarSpec2.row_td r = Some value ->
                                 exists raw, value = normalise raw)
         (TheCarSpec2.page_rows p) ->
  parse_car detail_url (Some p) <> TheCarSpec2.IndexError.
Proof.
  intros Hclean. unfold parse_car.
  set (start := match TheCarSpec2.page_version p with
                | Some version => Dict.set [("URL", detail_url)] "Version" version
                | None => [("URL", detail_url)]
                end).
  destruct (store_rows start _) as [d|] eqn:Hrows; [by destruct (_ && _)|].
  exfalso. unfold store_rows in Hrows.
  apply (foldl_bind_raises store_row _ thecarspec_store_row_raises) in Hrows.
  apply Exists_exists in Hrows as (r & Hr & _ & value & Htd & Ht & Hsplit).
  rewrite Forall_forall in Hclean.
  destruct (Hclean r Hr value Htd) as [raw ->].
  by apply normalise_has_word in Ht.
Qed.

Lemma thecarspec_parse_car_no_index_error_witness :
  parse_car "u"
    (Some {| TheCarSpec2.page_version := Some "124 GT 2018";
             TheCarSpec2.page_rows :=
               [ {| TheCarSpec2.row_th := Some "Curb weight kg -lbs total";
                    TheCarSpec2.row_td := Some "" |};
                 {| TheCarSpec2.row_th := Some "Curb weight kg -lbs total";
                    TheCarSpec2.row_td := Some "1060 2337" |} ] |})
  <> TheCarSpec2.IndexError.
Proof.
  apply (thecarspec_parse_car_no_index_error "u").
  repeat constructor; simpl; intros value [= <-].
  - exists "". reflexivity.
  - exists " 1060   2337 ". reflexivity.
Defined.

End CurbWeight.

(** ** The order in which the workers finish *)

Section Schedules.
Context (pool pool' : Pool).

Lemma concat_pool_map_perm {A B : Type} (fn : A -> list B) (args args' : list A) :
  args ≡ₚ args' ->
  concat (@pool_map pool _ _ fn args) ≡ₚ concat (@pool_map pool' _ _ fn args').
Proof.
  intros Hperm. unfold pool_map. rewrite !imap_unordered_perm. by rewrite Hperm.
Qed.

Lemma autodata_variant_links_perm (web : Autodata.site) :
  @Autodata.model_links pool web ≡ₚ @Autodata.model_links pool' web
  /\ @Autodata.generation_links pool web ≡ₚ @Autodata.generation_links pool' web
  /\ @Autodata.variant_links pool web ≡ₚ @Autodata.variant_links pool' web
  /\ @Autodata.cars pool web ≡ₚ @Autodata.cars pool' web.
Proof.
  assert (Hm : @Autodata.model_links pool web ≡ₚ @Autodata.model_links pool' web)
    by by apply concat_pool_map_perm.
  assert (Hg : @Autodata.generation_links pool web
               ≡ₚ @Autodata.generation_links pool' web)
    by by apply concat_pool_map_perm.
  assert (Hv : @Autodata.variant_links pool web ≡ₚ @Autodata.variant_links pool' web)
    by by apply concat_pool_map_perm.
  repeat split; try done.
  unfold Autodata.cars, pool_map. rewrite !imap_unordered_perm. by rewrite Hv.
Qed.

(** X19: a run of [autodata_scraper.py] does not depend on the order in
    which the workers of the pool finish, but for the order of the
    records and of the columns after the priority ones: every stage
    gathers as many items, the records are the same, the header of the
    table is the priority columns followed by the same other columns,
    and [main] ends in the same way with the same log. *)
Theorem autodata_run_whatever_the_schedule {wire : Type} `{Pickle wire}
    (web : Autodata.site) (w : world wire) :
  (forall s, @Autodata.output_size pool web s = @Autodata.output_size pool' web s)
  /\ @Autodata.cars pool web ≡ₚ @Autodata.cars pool' web
  /\ (exists rest rest',
        Autodata.fieldnames (@Autodata.cars pool web)
        = (Autodata.priority_keys ++ rest)%list
        /\ Autodata.fieldnames (@Autodata.cars pool' web)
           = (Autodata.priority_keys ++ rest')%list
        /\ rest ≡ₚ rest')
  /\ (@Autodata.main wire _ pool web w).1 = (@Autodata.main wire _ pool' web w).1
  /\ log (@Autodata.main wire _ pool web w).2
     = log (@Autodata.main wire _ pool' web w).2.
Proof.
  destruct (autodata_variant_links_perm web) as (Hm & Hg & Hv & Hc).
  assert (Hsize : forall s, @Autodata.output_size pool web s
                            = @Autodata.output_size pool' web s).
  { intros []; simpl; try done; by apply Permutation_length. }
  split; [done|]. split; [done|]. split.
  { eexists _, _. split; [reflexivity|]. split; [reflexivity|].
    apply NoDup_Permutation.
    - apply NoDup_filter, NoDup_elements.
    - apply NoDup_filter, NoDup_elements.
    - intros k. rewrite !list_elem_of_filter, !elem_of_elements, !elem_of_all_keys.
      split; intros (Hk & car & Hcar & Hin); (split; [done|]); exists car;
        (split; [|done]).
      + by rewrite <- Hc.
      + by rewrite Hc. }
  pose proof (Hsize Models) as HM. pose proof (Hsize Generations) as HG.
  pose proof (Hsize Variants) as HV. pose proof (Hsize Details) as HD.
  simpl in HM, HG, HV, HD.
  destruct w as [pf cf pw cw lg]. unfold Autodata.main. simpl.
  destruct pf as [content|]; [done|].
  unfold Autodata.parse_cars. simpl. rewrite <- HM, <- HG, <- HV, <- HD.
  repeat case_bool_decide; simpl; try done.
  unfold Autodata.write_pickle, Autodata.write_to_csv, pickle_dump, csv_write. simpl.
  by destruct pw, cw.
Qed.

End Schedules.

(** ** A cached pickle that is kept *)

Section Snapshot.
Context {wire : Type} `{Pickle wire}.

(** X20: [main] of [theCarSpec_scraper.py] that finds a pickle file
    holding a list of a hundred records or more keeps the file, runs no
    stage of the crawl and writes the table from these records. *)
Theorem thecarspec_valid_pickle_is_used `{Pool} (web : TheCarSpec.site)
    (w : world wire) (content : wire) (cars : list dict) :
  pickle_file w = Some content ->
  load content = Some (PyList cars) ->
  100 <= length cars ->
  let names := TheCarSpec.fieldnames cars in
  TheCarSpec.check_pickle w = w
  /\ TheCarSpec.main web w
     = (if csv_writable w then Finished else Returned,
        (csv_write names (Autodata.pad names <$> cars) w).2)
  /\ pickle_file (TheCarSpec.main web w).2 = Some content
  /\ log (TheCarSpec.main web w).2
     = (log w ++ [if csv_writable w then CsvWritten else CsvFailed])%list.
Proof.
  intros Hfile Hload Hlen names.
  assert (Hcheck : TheCarSpec.check_pickle w = w).
  { unfold TheCarSpec.check_pickle. rewrite Hfile, Hload. simpl.
    rewrite bool_decide_eq_false_2; [done|]. unfold TheCarSpec.min_records. lia. }
  assert (Hmain : TheCarSpec.main web w
                  = (if csv_writable w then Finished else Returned,
                     (csv_write names (Autodata.pad names <$> cars) w).2)).
  { unfold TheCarSpec.main. rewrite Hcheck, Hfile.
    unfold TheCarSpec.read_pickle, pickle_load. rewrite Hfile. simpl. rewrite Hload.
    simpl. unfold TheCarSpec.write_to_csv. destruct cars as [|car cars]; [simpl in Hlen; lia|].
    fold names. unfold csv_write. by destruct (csv_writable w). }
  split; [done|]. split; [done|]. rewrite Hmain. unfold csv_write.
  destruct (csv_writable w); simpl; done.
Qed.

(** X21: [main] of [thecarSpec_scraper2.py] that finds a pickle file
    holding ten thousand records or more keeps the file, downloads
    nothing and writes the table from these records. *)
Theorem scraper2_valid_pickle_is_used (web : TheCarSpec2.site) (w : world wire)
    (content : wire) (loaded : pyobj) (n : nat) :
  pickle_file w = Some content ->
  load content = Some loaded ->
  len loaded = Some n ->
  (10000 <= Z.of_nat n)%Z ->
  exists cars,
    records loaded = Some cars
    /\ length cars = n
    /\ TheCarSpec2.check_pickle w = w
    /\ TheCarSpec2.main web w = TheCarSpec2.write_csv cars w
    /\ pickle_file (TheCarSpec2.main web w).2 = Some content
    /\ log (TheCarSpec2.main web w).2
       = (log w ++ [if csv_writable w then CsvWritten else CsvFailed])%list.
Proof.
  intros Hfile Hload Hlen Hn.
  assert (Hcheck : TheCarSpec2.check_pickle w = w).
  { unfold TheCarSpec2.check_pickle. rewrite Hfile, Hload, Hlen.
    rewrite bool_decide_eq_false_2; [done|]. unfold TheCarSpec2.min_records. lia. }
  assert (Hrec : exists cars, records loaded = Some cars /\ length cars = n).
  { destruct loaded as [cars|cars|z]; simpl in *; [| |done];
      injection Hlen as <-; by exists cars. }
  destruct Hrec as (cars & Hrec & Hcars). exists cars.
  assert (Hmain : TheCarSpec2.main web w = TheCarSpec2.write_csv cars w).
  { unfold TheCarSpec2.main. rewrite Hcheck, Hfile. unfold pickle_load.
    rewrite Hfile. simpl. rewrite Hload. simpl. by rewrite Hrec. }
  split; [done|]. split; [done|]. split; [done|]. split; [done|].
  rewrite Hmain. unfold TheCarSpec2.write_csv, csv_write.
  destruct (csv_writable w); simpl; done.
Qed.

(** X22: [main] of [thecarSpec_scraper2.py] that finds no pickle file
    returns early when [get_brands] comes back empty, and only then;
    nothing is written by such a run. *)
Theorem scraper2_returns_without_brands (web : TheCarSpec2.site) (w : world wire) :
  pickle_file w = None ->
  ((TheCarSpec2.main web w).1 = Returned <-> TheCarSpec2.get_brands web = [])
  /\ (TheCarSpec2.get_brands web = [] ->
      TheCarSpec2.main web w = (Returned, record_event (Ran Brands 0) w)).
Proof.
  intros Hfile. split; [split|].
  - intros Hret. destruct (TheCarSpec2.get_brands web) as [|b bs] eqn:Hb; [done|].
    exfalso. apply (scraper2_no_return_after_brands web w Hfile); [|done].
    by rewrite Hb.
  - intros Hb. unfold TheCarSpec2.main, TheCarSpec2.check_pickle.
    rewrite Hfile. simpl. rewrite Hfile. by rewrite Hb.
  - intros Hb. unfold TheCarSpec2.main, TheCarSpec2.check_pickle.
    rewrite Hfile. simpl. rewrite Hfile. by rewrite Hb.
Qed.

End Snapshot.

Lemma thecarspec_valid_pickle_is_used_witness :
  let names := TheCarSpec.fieldnames hundred_records in
  TheCarSpec.check_pickle hundred_records_cached = hundred_records_cached
  /\ TheCarSpec.main one_brand_site hundred_records_cached
     = (if csv_writable hundred_records_cached then Finished else Returned,
        (csv_write names (Autodata.pad names <$> hundred_records)
           hundred_records_cached).2)
  /\ pickle_file (TheCarSpec.main one_brand_site hundred_records_cached).2
     = Some (Pickled (PyList hundred_records))
  /\ log (TheCarSpec.main one_brand_site hundred_records_cached).2
     = (log hundred_records_cached
        ++ [if csv_writable hundred_records_cached then CsvWritten else CsvFailed])%list.
Proof.
  apply (thecarspec_valid_pickle_is_used one_brand_site hundred_records_cached
           (Pickled (PyList hundred_records)) hundred_records).
  - reflexivity.
  - reflexivity.
  - vm_compute. lia.
Defined.

Lemma scraper2_valid_pickle_is_used_witness :
  exists cars,
    records (PyList ten_thousand_records) = Some cars
    /\ length cars = length ten_thousand_records
    /\ TheCarSpec2.check_pickle ten_thousand_records_cached = ten_thousand_records_cached
    /\ TheCarSpec2.main one_car_site2 ten_thousand_records_cached
       = TheCarSpec2.write_csv cars ten_thousand_records_cached
    /\ pickle_file (TheCarSpec2.main one_car_site2 ten_thousand_records_cached).2
       = Some (Pickled (PyList ten_thousand_records))
    /\ log (TheCarSpec2.main one_car_site2 ten_thousand_records_cached).2
       = (log ten_thousand_records_cached
          ++ [if csv_writable ten_thousand_records_cached
              then CsvWritten else CsvFailed])%list.
Proof.
  apply (scraper2_valid_pickle_is_used one_car_site2 ten_thousand_records_cached
           (Pickled (PyList ten_thousand_records)) (PyList ten_thousand_records)
           (length ten_thousand_records)).
  - reflexivity.
  - reflexivity.
  - reflexivity.
  - unfold ten_thousand_records. rewrite length_replicate. lia.
Defined.

Lemma scraper2_returns_without_brands_witness :
  ((TheCarSpec2.main no_brands_site no_files).1 = Returned
   <-> TheCarSpec2.get_brands no_brands_site = [])
  /\ (TheCarSpec2.get_brands no_brands_site = [] ->
      TheCarSpec2.main no_brands_site no_files
      = (Returned, record_event (Ran Brands 0) no_files)).
Proof. apply (scraper2_returns_without_brands no_brands_site no_files). reflexivity. Defined.

(** ** Runs of [autodata_scraper.py] and [theCarSpec_scraper.py] *)

Lemma autodata_empty_stage_aborts_witness :
  exists new,
    Autodata.main no_models_autodata_site no_files
    = (Returned, World None (csv_file no_files) (pickle_writable no_files)
                       (csv_writable no_files) (log no_files ++ new))
    /\ wrote new = false
    /\ Forall (fun s' => stage_index s' <= stage_index Models) (ran new).
Proof.
  apply (autodata_empty_stage_aborts no_models_autodata_site no_files Models).
  - reflexivity.
  - reflexivity.
Defined.

Lemma thecarspec_empty_stage_aborts_witness :
  exists new,
    TheCarSpec.main one_brand_site no_files
    = (Returned, World None (csv_file no_files) (pickle_writable no_files)
                       (csv_writable no_files) (log no_files ++ new))
    /\ wrote new = false
    /\ Forall (fun s' => stage_index s' <= stage_index Details) (ran new).
Proof.
  apply (thecarspec_empty_stage_aborts one_brand_site no_files Details).
  - reflexivity.
  - reflexivity.
Defined.

Section FullRun.
Context {wire : Type} `{Pickle wire} `{Pool}.

(** X25: a run of [main] of [autodata_scraper.py] that finds no pickle
    file, in which every stage gathers something and both files can be
    written, runs the five stages in order, dumps the records as they
    were gathered, and then writes the table: the header, and one row
    for each record with the empty string where the record lacks the
    field. *)
Theorem autodata_full_run (web : Autodata.site) (w : world wire) :
  pickle_file w = None ->
  (forall s, 0 < Autodata.output_size web s) ->
  pickle_writable w = true ->
  csv_writable w = true ->
  let cars := Autodata.cars web in
  let names := Autodata.fieldnames cars in
  Autodata.main web w
  = (Finished,
     World (Some (dump (PyList cars)))
           (Some (names :: ((fun car => (fun k => Dict.get_default car k "") <$> names)
                            <$> cars)))
           true true
           (log w ++ [Ran Brands (Autodata.output_size web Brands);
                      Ran Models (Autodata.output_size web Models);
                      Ran Generations (Autodata.output_size web Generations);
                      Ran Variants (Autodata.output_size web Variants);
                      Ran Details (Autodata.output_size web Details);
                      PickleDumped; CsvWritten])).
Proof.
  destruct w as [pf cf pw cw lg]. simpl. intros -> Hpos -> ->.
  pose proof (Hpos Brands) as HB. pose proof (Hpos Models) as HM.
  pose proof (Hpos Generations) as HG. pose proof (Hpos Variants) as HV.
  pose proof (Hpos Details) as HD. simpl in HB, HM, HG, HV, HD.
  unfold Autodata.main, Autodata.parse_cars. simpl.
  rewrite !bool_decide_eq_false_2 by lia.
  unfold Autodata.write_pickle, Autodata.write_to_csv, pickle_dump, csv_write.
  cbn [fst snd pickle_writable csv_writable pickle_file csv_file log record_event].
  f_equal. f_equal.
  - do 2 f_equal. rewrite <- list_fmap_compose. apply list_fmap_ext.
    intros i car _. unfold compose. apply csv_row_pad.
  - by rewrite <- !app_assoc.
Qed.

End FullRun.

Lemma autodata_full_run_witness :
  let cars := Autodata.cars one_car_site in
  let names := Autodata.fieldnames cars in
  Autodata.main one_car_site no_files
  = (Finished,
     World (Some (dump (PyList cars)))
           (Some (names :: ((fun car => (fun k => Dict.get_default car k "") <$> names)
                            <$> cars)))
           true true
           (log no_files ++ [Ran Brands (Autodata.output_size one_car_site Brands);
                             Ran Models (Autodata.output_size one_car_site Models);
                             Ran Generations (Autodata.output_size one_car_site Generations);
                             Ran Variants (Autodata.output_size one_car_site Variants);
                             Ran Details (Autodata.output_size one_car_site Details);
                             PickleDumped; CsvWritten])).
Proof.
  apply (autodata_full_run one_car_site no_files).
  - reflexivity.
  - intros []; vm_compute; lia.
  - reflexivity.
  - reflexivity.
Defined.

(** ** The brand and the model of a cars-directory record *)

Section CarsDirectoryRecords.
Import CarsDirectoryCrawl.
Context `{Pool} (web : site).

Lemma elem_of_flatten_pool_map {A B : Type} (fn : A -> list B) (args : list A) (y : B) :
  y ∈ flatten (pool_map fn args) <-> exists x, x ∈ args /\ y ∈ fn x.
Proof.
  unfold flatten, pool_map. rewrite imap_unordered_perm.
  induction args as [|a args IH]; csimpl.
  - split; [by intros ?%elem_of_nil|]. by intros (? & ?%elem_of_nil & _).
  - rewrite elem_of_app, IH. split.
    + intros [Hy|(x & Hx & Hy)]; [exists a|exists x]; split; auto; constructor; done.
    + intros (x & [->|Hx]%elem_of_cons & Hy); [by left|right; eauto].
Qed.

(** Where a variant page of the crawl has its brand and its model from. *)
Lemma variant_links_origin (variant_page : CarsDirectory.VariantPage) :
  variant_page ∈ variant_links web ->
  exists brand_link model_link,
    (CarsDirectory.brand variant_page, brand_link) ∈ brand_cards web URL
    /\ (CarsDirectory.model variant_page, model_link) ∈ model_cards web brand_link.
Proof.
  unfold variant_links. rewrite elem_of_flatten_pool_map.
  intros (gp & Hgp & Hvp). unfold generation_links in Hgp.
  apply elem_of_flatten_pool_map in Hgp as (mp & Hmp & Hgp).
  unfold model_links in Hmp.
  apply elem_of_flatten_pool_map in Hmp as (bp & Hbp & Hmp).
  unfold brand_links, parse_brands in Hbp.
  apply list_elem_of_fmap in Hbp as ([bname blink] & -> & Hbcard).
  unfold parse_models in Hmp. simpl in Hmp.
  apply list_elem_of_fmap in Hmp as ([mname mlink] & -> & Hmcard).
  unfold parse_generations in Hgp. simpl in Hgp.
  apply list_elem_of_fmap in Hgp as (glink & -> & _).
  unfold parse_variants in Hvp. simpl in Hvp.
  apply list_elem_of_fmap in Hvp as (vlink & -> & _). simpl. eauto.
Qed.

(** X26: every record that the crawl of [carsdirectory_scraper.py]
    returns is empty or has, as [Brand], the name of a brand card of the
    front page and, as [BrandModel], the name of a model card of the
    page of that brand, whatever the rows of its details table say. *)
Theorem carsdirectory_brand_of_the_front_page (all_cars : list dict) :
  parse_cars web = Some all_cars ->
  Forall (fun car : dict =>
            car = []
            \/ exists brand_name brand_link model_name model_link,
                 (brand_name, brand_link) ∈ brand_cards web URL
                 /\ (model_name, model_link) ∈ model_cards web brand_link
                 /\ Dict.get car "Brand" = Some brand_name
                 /\ Dict.get car "BrandModel" = Some model_name)
         all_cars.
Proof.
  unfold parse_cars. repeat (case_bool_decide; [done|]). intros [= <-].
  apply Forall_forall. intros car Hcar. unfold cars, pool_map in Hcar.
  rewrite imap_unordered_perm in Hcar.
  apply list_elem_of_fmap in Hcar as (vp & -> & Hvp).
  apply variant_links_origin in Hvp as (blink & mlink & Hb & Hm).
  unfold parse_car, CarsDirectory.parse_car.
  destruct (details_table web _) as [table|]; [right|by left].
  exists (CarsDirectory.brand vp), blink, (CarsDirectory.model vp), mlink.
  split; [done|]. split; [done|].
  rewrite (foldl_rows_writes _ _ carsdirectory_parse_row_write).
  by rewrite !get_foldl_setdefault.
Qed.

End CarsDirectoryRecords.

Lemma carsdirectory_brand_of_the_front_page_witness :
  Forall (fun car : dict =>
            car = []
            \/ exists brand_name brand_link model_name model_link,
                 (brand_name, brand_link)
                   ∈ CarsDirectoryCrawl.brand_cards one_car_directory CarsDirectoryCrawl.URL
                 /\ (model_name, model_link)
                      ∈ CarsDirectoryCrawl.model_cards one_car_directory brand_link
                 /\ Dict.get car "Brand" = Some brand_name
                 /\ Dict.get car "BrandModel" = Some model_name)
         [[("Brand", "Audi"); ("BrandModel", "A4")]].
Proof.
  apply (carsdirectory_brand_of_the_front_page one_car_directory). reflexivity.
Defined.

(** ** A crawl whose pickle the next run drops *)

Section SmallCrawl.
Context {wire : Type} `{Pickle wire} `{Pool}.

(** X27: a crawl of [theCarSpec_scraper.py] that gathers fewer than a
    hundred records dumps them, and the next run of [main] removes that
    pickle file and crawls again, as a run that finds no pickle file
    does. *)
Theorem thecarspec_small_crawl_is_repeated (web : TheCarSpec.site) (w : world wire) :
  pickle_file w = None ->
  pickle_writable w = true ->
  (forall s, 0 < TheCarSpec.output_size web s) ->
  length (TheCarSpec.cars web) < 100 ->
  let w1 := (TheCarSpec.main web w).2 in
  pickle_file w1 = Some (dump (PyList (TheCarSpec.cars web)))
  /\ TheCarSpec.check_pickle w1 = unlink w1
  /\ TheCarSpec.main web w1 = TheCarSpec.main web (unlink w1).
Proof.
  intros Hfile Hwritable Hpos Hshort w1.
  assert (Hdump : pickle_file w1 = Some (dump (PyList (TheCarSpec.cars web)))).
  { unfold w1. destruct w as [pf cf pw cw lg]. simpl in Hfile, Hwritable. subst pf pw.
    pose proof (Hpos Brands) as HB. pose proof (Hpos Models) as HM.
    pose proof (Hpos Variants) as HV. pose proof (Hpos Details) as HD.
    simpl in HB, HM, HV, HD.
    unfold TheCarSpec.main, TheCarSpec.check_pickle, TheCarSpec.parse_cars. simpl.
    rewrite !bool_decide_eq_false_2 by lia.
    unfold TheCarSpec.write_pickle, TheCarSpec.write_to_csv, pickle_dump, csv_write.
    simpl. destruct (TheCarSpec.cars web) as [|car cars]; [done|].
    by destruct cw. }
  assert (Hcheck : TheCarSpec.check_pickle w1 = unlink w1).
  { apply (thecarspec_check_removes w1 _ Hdump). right.
    exists (PyList (TheCarSpec.cars web)). split; [apply load_dump|]. right.
    exists (length (TheCarSpec.cars web)). split; [done|].
    unfold TheCarSpec.min_records. lia. }
  split; [done|]. split; [done|].
  unfold TheCarSpec.main. rewrite Hcheck. reflexivity.
Qed.

End SmallCrawl.

Lemma thecarspec_small_crawl_is_repeated_witness :
  let w1 := (TheCarSpec.main one_record_site no_files).2 in
  pickle_file w1 = Some (dump (PyList (TheCarSpec.cars one_record_site)))
  /\ TheCarSpec.check_pickle w1 = unlink w1
  /\ TheCarSpec.main one_record_site w1 = TheCarSpec.main one_record_site (unlink w1).
Proof.
  apply (thecarspec_small_crawl_is_repeated one_record_site no_files).
  - reflexivity.
  - reflexivity.
  - intros []; vm_compute; lia.
  - vm_compute. lia.
Defined.

Section SmallCrawl2.
Context {wire : Type} `{Pickle wire}.

Lemma collect_length (results : list TheCarSpec2.extracted) (cars : list dict) :
  TheCarSpec2.collect results = Some cars -> length cars <= length results.
Proof.
  revert cars. induction results as [|[data| |] results IH]; intros cars; simpl.
  - by intros [= <-].
  - destruct (TheCarSpec2.collect results) as [rest|]; [|done]. simpl.
    intros [= <-]. simpl. specialize (IH rest eq_refl). lia.
  - intros Hc. specialize (IH cars Hc). lia.
  - done.
Qed.

(** X28: a crawl of [thecarSpec_scraper2.py] over fewer than ten
    thousand variant pages dumps at most as many records, and the next
    run of [main] removes that pickle file and crawls again, as a run
    that finds no pickle file does. *)
Theorem scraper2_small_crawl_is_repeated (web : TheCarSpec2.site) (w : world wire)
    (cars : list dict) :
  pickle_file w = None ->
  pickle_writable w = true ->
  TheCarSpec2.get_brands web <> [] ->
  TheCarSpec2.collect (TheCarSpec2.results web) = Some cars ->
  (Z.of_nat (length (TheCarSpec2.all_variants web)) < 10000)%Z ->
  let w1 := (TheCarSpec2.main web w).2 in
  exists cars',
    mapM TheCarSpec2.backfill cars = Some cars'
    /\ pickle_file w1 = Some (dump (PyList cars'))
    /\ TheCarSpec2.check_pickle w1 = unlink w1
    /\ TheCarSpec2.main web w1 = TheCarSpec2.main web (unlink w1).
Proof.
  intros Hfile Hwritable Hbrands Hcollect Hsmall w1.
  destruct (backfill_collected web cars Hcollect) as [cars' Hcars'].
  exists cars'. split; [done|].
  assert (Hdump : pickle_file w1 = Some (dump (PyList cars'))).
  { unfold w1. destruct w as [pf cf pw cw lg]. simpl in Hfile, Hwritable. subst pf pw.
    unfold TheCarSpec2.main, TheCarSpec2.check_pickle. simpl.
    destruct (TheCarSpec2.get_brands web) as [|b bs]; [done|].
    rewrite Hcollect. simpl. rewrite Hcars'.
    unfold pickle_dump, TheCarSpec2.write_csv, csv_write. simpl. by destruct cw. }
  assert (Hcheck : TheCarSpec2.check_pickle w1 = unlink w1).
  { apply (thecarspec2_check_removes w1 _ Hdump). right.
    exists (PyList cars'). split; [apply load_dump|]. right.
    exists (length cars'). split; [done|].
    pose proof (collect_length _ _ Hcollect) as Hle.
    apply length_mapM in Hcars'. unfold TheCarSpec2.results in Hle.
    rewrite length_fmap in Hle. unfold TheCarSpec2.min_records. lia. }
  split; [done|]. split; [done|].
  unfold TheCarSpec2.main. rewrite Hcheck. reflexivity.
Qed.

End SmallCrawl2.

Lemma scraper2_small_crawl_is_repeated_witness :
  let w1 := (TheCarSpec2.main one_car_site2 no_files).2 in
  exists cars',
    mapM TheCarSpec2.backfill
      [[("URL", "https://www.thecarspec.net/car-detail/124-gt");
        ("Version", "124 GT 2018"); ("Brand", "Abarth"); ("Model", "124");
        ("Fuel type", "Petrol"); ("Doors", "2"); ("Seats", "2")]]
    = Some cars'
    /\ pickle_file w1 = Some (dump (PyList cars'))
    /\ TheCarSpec2.check_pickle w1 = unlink w1
    /\ TheCarSpec2.main one_car_site2 w1 = TheCarSpec2.main one_car_site2 (unlink w1).
Proof.
  apply (scraper2_small_crawl_is_repeated one_car_site2 no_files).
  - reflexivity.
  - reflexivity.
  - discriminate.
  - reflexivity.
  - vm_compute. reflexivity.
Defined.

(** ** The table of [theCarSpec_scraper.py] has rows *)

Section TableRows.
Context {wire : Type} `{Pickle wire} `{Pool}.

(** What [check_pickle] of [theCarSpec_scraper.py] leaves: no pickle
    file, or the world it was given, whose pickle file holds a list of a
    hundred records or more. *)
Lemma thecarspec_check_cases (w : world wire) :
  (pickle_file (TheCarSpec.check_pickle w) = None
   /\ csv_writable (TheCarSpec.check_pickle w) = csv_writable w)
  \/ (TheCarSpec.check_pickle w = w
      /\ exists content cars,
           pickle_file w = Some content
           /\ load content = Some (PyList cars)
           /\ 100 <= length cars).
Proof.
  unfold TheCarSpec.check_pickle.
  destruct (pickle_file w) as [content|] eqn:Hfile; [|by left].
  destruct (load content) as [o|] eqn:Hload; [|by left].
  destruct o as [cars|cars|z]; simpl; try by left.
  case_bool_decide as Hshort; [by left|]. right. split; [done|].
  exists content, cars. split; [done|]. split; [done|].
  unfold TheCarSpec.min_records in Hshort. lia.
Qed.

Lemma padded_table_rows (names : list string) (cars : list dict) :
  Forall (fun row : list string => length row = length names)
         (csv_row names <$> (Autodata.pad names <$> cars)).
Proof.
  apply Forall_fmap, Forall_fmap, Forall_forall. intros car _. unfold compose, csv_row.
  by rewrite length_fmap.
Qed.

(** X29: a run of [main] of [theCarSpec_scraper.py] that ends normally
    while the CSV file can be written leaves a table with a header and
    at least one row, each row with one cell for each column: the table
    is written from the records of a crawl, which are never none, or
    from a pickle of a hundred records or more. *)
Theorem thecarspec_table_has_rows (web : TheCarSpec.site) (w : world wire) :
  (TheCarSpec.main web w).1 = Finished ->
  csv_writable w = true ->
  exists header rows,
    csv_file (TheCarSpec.main web w).2 = Some (header :: rows)
    /\ rows <> []
    /\ Forall (fun row : list string => length row = length header) rows.
Proof.
  unfold TheCarSpec.main. intros Hfin Hcsv. revert Hfin.
  destruct (thecarspec_check_cases w) as [[Hnone Hcw]|(-> & content & cars & Hfile & Hload & Hlen)].
  - rewrite Hcsv in Hcw. destruct (TheCarSpec.check_pickle w) as [pf cf pw cw lg].
    simpl in Hnone, Hcw. subst pf cw. simpl.
    unfold TheCarSpec.parse_cars. simpl.
    repeat (case_bool_decide; [done|]). simpl. intros _.
    unfold TheCarSpec.write_pickle, TheCarSpec.write_to_csv, pickle_dump, csv_write.
    destruct (TheCarSpec.cars web) as [|car cars] eqn:Hcars; [simpl in *; lia|].
    destruct pw;
      cbv beta iota zeta
          delta [fst snd csv_file csv_writable pickle_writable pickle_file log
                 record_event];
      eexists _, _; (split; [reflexivity|]); split; try done;
      apply (padded_table_rows _ (car :: cars)).
  - rewrite Hfile. unfold TheCarSpec.read_pickle, pickle_load. rewrite Hfile. simpl.
    rewrite Hload. simpl. destruct cars as [|car cars]; [simpl in Hlen; lia|].
    unfold TheCarSpec.write_to_csv, csv_write. rewrite Hcsv.
    cbv beta iota zeta delta [fst snd csv_file]. intros _.
    eexists _, _. split; [reflexivity|]. split; [done|].
    apply (padded_table_rows _ (car :: cars)).
Qed.

End TableRows.

Lemma thecarspec_table_has_rows_witness :
  exists header rows,
    csv_file (TheCarSpec.main one_record_site no_files).2 = Some (header :: rows)
    /\ rows <> []
    /\ Forall (fun row : list string => length row = length header) rows.
Proof.
  apply (thecarspec_table_has_rows one_record_site no_files).
  - reflexivity.
  - reflexivity.
Defined.
